(** * On-device shape of an eager tensor handle (tensorflow/c/eager/c_api_debug.cc)

    A shallow embedding of [TensorShapeAsVector] and of
    [TensorHandleInterface::TensorDebugInfo], followed by the properties of
    the debug-info query: identity on ordinary devices, tuple-shape
    normalisation, dimension reordering, status/result coupling and the
    independence of the result from the diagnostic log. *)

From stdpp Require Import base tactics option list list_numbers strings.

Open Scope Z_scope.

(** ** Status *)

(** The error codes a non-OK [tensorflow::Status] can carry. *)
Inductive Code :=
| CANCELLED | UNKNOWN | INVALID_ARGUMENT | DEADLINE_EXCEEDED | NOT_FOUND
| ALREADY_EXISTS | PERMISSION_DENIED | UNAUTHENTICATED | RESOURCE_EXHAUSTED
| FAILED_PRECONDITION | ABORTED | OUT_OF_RANGE | UNIMPLEMENTED | INTERNAL
| UNAVAILABLE | DATA_LOSS.

(** Modelled from the spec: [tensorflow::Status] is declared outside this
    file («the generic status/error-code type»); a status is either OK or an
    error code with a message. *)
Inductive Status :=
| Status_OK
| Status_Error (code : Code) (error_message : string).

Definition ok (s : Status) : bool :=
  match s with Status_OK => true | Status_Error _ _ => false end.

(** [errors::InvalidArgument(a, b)]: the message is the concatenation of the
    arguments. *)
Definition InvalidArgument (a b : string) : Status :=
  Status_Error INVALID_ARGUMENT (a +:+ b).

(** ** Device shape descriptors *)

(** Modelled from the spec: [xla::Shape] is declared in the XLA compiler, not
    in this file.  A descriptor is either flat, an ordered list of dimension
    sizes with the layout's minor-to-major list of dimension indices, or a
    tuple of sub-shapes (§3).  The element type is kept as an opaque tag,
    which only shape equality looks at. *)
#[local] Unset Elimination Schemes.
Inductive Shape :=
| ArrayShape (element_type : Z) (dims : list Z) (layout_minor_to_major : list Z)
| TupleShape (tuple_shapes : list Shape).
#[local] Set Elimination Schemes.

Definition IsTuple (s : Shape) : bool :=
  match s with TupleShape _ => true | ArrayShape _ _ _ => false end.

Definition TupleElementCount (s : Shape) : Z :=
  match s with
  | TupleShape ts => Z.of_nat (length ts)
  | ArrayShape _ _ _ => 0
  end.

(** An accessor with an index: [None] stands for a call outside the
    container, which the callers below turn into a crash. *)
Definition at_index {A} (l : list A) (i : Z) : option A :=
  if decide (0 ≤ i) then l !! Z.to_nat i else None.

Definition GetTupleElementShape (s : Shape) (i : Z) : option Shape :=
  match s with
  | TupleShape ts => at_index ts i
  | ArrayShape _ _ _ => None
  end.

(** A tuple shape has no dimensions of its own. *)
Definition dimensions_list (s : Shape) : list Z :=
  match s with ArrayShape _ ds _ => ds | TupleShape _ => [] end.

Definition minor_to_major_list (s : Shape) : list Z :=
  match s with ArrayShape _ _ m => m | TupleShape _ => [] end.

Definition dimensions_size (s : Shape) : Z := Z.of_nat (length (dimensions_list s)).

Definition dimensions (s : Shape) (index : Z) : option Z :=
  at_index (dimensions_list s) index.

Definition minor_to_major (s : Shape) (index : Z) : option Z :=
  at_index (minor_to_major_list s) index.

(** Modelled from the spec: [xla::ShapeUtil::Equal] is declared in the XLA
    compiler; §4.3 calls it structural equality of the two sub-shapes. *)
Fixpoint Equal (a b : Shape) {struct a} : bool :=
  match a, b with
  | ArrayShape ta da la, ArrayShape tb db lb =>
      bool_decide (ta = tb) && bool_decide (da = db) && bool_decide (la = lb)
  | TupleShape sa, TupleShape sb =>
      (fix all2 (xs ys : list Shape) {struct xs} : bool :=
         match xs, ys with
         | [], [] => true
         | x :: xs', y :: ys' => Equal x y && all2 xs' ys'
         | _, _ => false
         end) sa sb
  | _, _ => false
  end.

(** ** Tensor handles and devices *)

(** A call either returns a value or, when an indexed accessor is called
    outside its container, does not return normally. *)
Inductive result (A : Type) :=
| Returns (a : A)
| OutOfRange.
Arguments Returns {A} a.
Arguments OutOfRange {A}.

Definition result_bind {A B} (f : A → result B) (r : result A) : result B :=
  match r with Returns a => f a | OutOfRange => OutOfRange end.

#[global] Instance result_mbind : MBind result := @result_bind.
#[global] Instance result_fmap : FMap result :=
  λ A B f r, match r with Returns a => Returns (f a) | OutOfRange => OutOfRange end.

(** An accessor call whose index must be in range. *)
Definition checked {A} (o : option A) : result A :=
  match o with Some a => Returns a | None => OutOfRange end.

(** The debug-info container: the on-device dimension sizes. *)
Record TFE_TensorDebugInfo := { dev_dims : list Z }.

(** One line of the level-3 verbose log: «Fully padded shape of [shape_to_log]
    is padded_shape». *)
Record LogLine := { shape_to_log : list Z; logged_padded_shape : Shape }.

(** What the code takes from its build and its surroundings: the
    compile-time switch [TENSORFLOW_EAGER_USE_XLA], the run-time verbosity
    test [VLOG_IS_ON] and the printer [xla::Shape::DebugString]. *)
Record Env := {
  TENSORFLOW_EAGER_USE_XLA : bool;
  VLOG_IS_ON : Z → bool;
  DebugString : Shape → string;
}.

Section c_api_debug.

(** [tensorflow::Tensor], opaque here: it is only handed to the device's
    padded-shape function. *)
Context {tensorflow_Tensor : Type}.

(** [XlaDevice::PaddedShapeFn]: the returned status and the value written
    to [*padded_shape]. *)
Record XlaDevice := { padded_shape_fn : tensorflow_Tensor → Status * Shape }.

(** A device is the XLA variant or anything else (a null device included);
    [dynamic_cast_XlaDevice] is the downcast of the source. *)
Inductive Device :=
| Device_Xla (xla_device : XlaDevice)
| Device_Other.

Definition dynamic_cast_XlaDevice (d : Device) : option XlaDevice :=
  match d with Device_Xla x => Some x | Device_Other => None end.

(** What [TensorDebugInfo] asks of a handle: each method gives the status
    it returns and the value it writes to its out-parameter (read by the
    callers only when the status is OK).  The rank a handle reports is a
    number of dimensions, hence a natural number. *)
Record TensorHandle := {
  Tensor : Status * tensorflow_Tensor;  (* handle_->Tensor(&tensor) *)
  NumDims : Status * nat;               (* handle.NumDims(&rank) *)
  Dim : Z → Status * Z;                 (* handle.Dim(i, &dim) *)
  device : Device;                      (* handle_->device() *)
}.

Variable env : Env.

(** *** [TensorShapeAsVector] (lines 31-49) *)

(** The loop [for (int i = 0; i < rank; ++i)], with [n] iterations left,
    the vector [shape] built so far and the current [*status]. *)
Fixpoint TensorShapeAsVector_loop (handle : TensorHandle) (n : nat) (i : Z)
    (shape : list Z) (status : Status) : list Z * Status :=
  match n with
  | O => (shape, status)
  | S n' =>
      let '(status, dim) := Dim handle i in
      if negb (ok status) then (shape, status)
      else TensorShapeAsVector_loop handle n' (i + 1) (shape ++ [dim]) status
  end.

(** Returns the vector and the final [*status]; [shape.reserve(rank)] has
    no effect on either. *)
Definition TensorShapeAsVector (handle : TensorHandle) : list Z * Status :=
  let shape : list Z := [] in
  let '(status, rank) := NumDims handle in
  if negb (ok status) then (shape, status)
  else TensorShapeAsVector_loop handle rank 0 shape status.

(** *** [TensorDebugInfo] (lines 60-154) *)

(** Lines 94-128: a tuple descriptor is checked and replaced by its first
    element; the left injection is the error written to [*status] before
    [return nullptr]. *)
Definition normalize_tuple (padded_shape : Shape) : result (Status + Shape) :=
  if IsTuple padded_shape then
    if negb (TupleElementCount padded_shape =? 2) then
      Returns (inl (InvalidArgument
        "XlaTensors should only contain tuples of size 2. Shape: "
        (DebugString env padded_shape)))
    else
      shape0 ← checked (GetTupleElementShape padded_shape 0);
      shape1 ← checked (GetTupleElementShape padded_shape 1);
      if IsTuple shape0 || IsTuple shape1 then
        Returns (inl (InvalidArgument
          "XlaTensors should not contain nested tuples. Shape: "
          (DebugString env padded_shape)))
      else if negb (Equal shape0 shape1) then
        Returns (inl (InvalidArgument
          "Subshapes of XlaTensors should be the same. Shape: "
          (DebugString env padded_shape)))
      else Returns (inr shape0)
  else Returns (inr padded_shape).

(** The loop [for (int i = rank - 1; i >= 0; --i)] of lines 137-140, with
    [n = i + 1] iterations left. *)
Fixpoint reorder_loop (padded_shape : Shape) (n : nat) (dev_dims : list Z)
    : result (list Z) :=
  match n with
  | O => Returns dev_dims
  | S i =>
      dim_index ← checked (minor_to_major padded_shape (Z.of_nat i));
      d ← checked (dimensions padded_shape dim_index);
      reorder_loop padded_shape i (dev_dims ++ [d])
  end.

(** Lines 130-141. *)
Definition padded_dev_dims (padded_shape : Shape) : result (list Z) :=
  let rank := dimensions_size padded_shape in
  let dev_dims : list Z := [] in
  if rank =? 1 then
    d ← checked (dimensions padded_shape 0);
    Returns (dev_dims ++ [d])
  else reorder_loop padded_shape (Z.to_nat rank) dev_dims.

(** Lines 82-92: the log lines written and [*status] afterwards, which
    is OK on both branches ([status] is OK on entry). *)
Definition log_padded_shape (handle : TensorHandle) (padded_shape : Shape)
    (status : Status) : list LogLine * Status :=
  if VLOG_IS_ON env 3 then
    let '(shape_to_log, status) := TensorShapeAsVector handle in
    if negb (ok status) then
      (* Ignore the status here as we are simply logging. *)
      ([], Status_OK)
    else ([ {| shape_to_log := shape_to_log;
               logged_padded_shape := padded_shape |} ], status)
  else ([], status).

(** Lines 74-144, the body of [if (xla_device != nullptr)]. *)
Definition xla_debug_info (handle : TensorHandle) (xla_device : XlaDevice)
    (tensor : tensorflow_Tensor) : result (list LogLine * (option TFE_TensorDebugInfo * Status)) :=
  let shape_fn := padded_shape_fn xla_device in
  let '(status, padded_shape) := shape_fn tensor in
  if negb (ok status) then Returns ([], (None, status))
  else
    let '(log, status) := log_padded_shape handle padded_shape status in
    normalized ← normalize_tuple padded_shape;
    match normalized with
    | inl status => Returns (log, (None, status))
    | inr padded_shape =>
        dev_dims ← padded_dev_dims padded_shape;
        Returns (log, (Some {| dev_dims := dev_dims |}, Status_OK))
    end.

(** Lines 147-153. *)
Definition default_debug_info (handle : TensorHandle)
    : result (list LogLine * (option TFE_TensorDebugInfo * Status)) :=
  let '(dev_dims, status) := TensorShapeAsVector handle in
  if negb (ok status) then Returns ([], (None, status))
  else Returns ([], (Some {| dev_dims := dev_dims |}, status)).

(** Lines 68-74: the XLA device of the handle, when the XLA branch is
    compiled in and the downcast succeeds. *)
Definition xla_device_of (handle : TensorHandle) : option XlaDevice :=
  if TENSORFLOW_EAGER_USE_XLA env
  then dynamic_cast_XlaDevice (device handle) else None.

(** The log written, the pointer returned ([None] is [nullptr]) and the
    final [*status]. *)
Definition TensorDebugInfo (handle : TensorHandle)
    : result (list LogLine * (option TFE_TensorDebugInfo * Status)) :=
  let '(status, tensor) := Tensor handle in
  if negb (ok status) then Returns ([], (None, status))
  else
    match xla_device_of handle with
    | Some xla_device => xla_debug_info handle xla_device tensor
    | None => default_debug_info handle
    end.

(** Lines 161-169. *)
Definition TFE_TensorDebugInfoOnDeviceNumDims (debug_info : TFE_TensorDebugInfo) : Z :=
  Z.of_nat (length (dev_dims debug_info)).

Definition TFE_TensorDebugInfoOnDeviceDim (debug_info : TFE_TensorDebugInfo)
    (dim_index : Z) : option Z :=
  at_index (dev_dims debug_info) dim_index.

End c_api_debug.

Arguments XlaDevice : clear implicits.
Arguments Device : clear implicits.
Arguments TensorHandle : clear implicits.

(** ** Notions used in the statements *)

(** Structural induction on shapes, through the list of a tuple. *)
Fixpoint Shape_ind (P : Shape → Prop)
    (Harray : ∀ t ds m, P (ArrayShape t ds m))
    (Htuple : ∀ ts, Forall P ts → P (TupleShape ts)) (s : Shape) : P s :=
  match s with
  | ArrayShape t ds m => Harray t ds m
  | TupleShape ts =>
      Htuple ts
        ((fix go (l : list Shape) : Forall P l :=
            match l with
            | [] => List.Forall_nil P
            | x :: l' => List.Forall_cons P x l' (Shape_ind P Harray Htuple x) (go l')
            end) ts)
  end.

(** The layout of a flat shape is valid when its minor-to-major list is a
    permutation of the dimension indices [0 .. rank-1]. *)
Definition valid_layout (s : Shape) : Prop :=
  minor_to_major_list s ≡ₚ seqZ 0 (dimensions_size s).

(** The dimension size at an index that is in range. *)
Definition dim_at (s : Shape) (index : Z) : Z :=
  default 0 (dimensions s index).

Section notions.
Context {tensorflow_Tensor : Type} (env : Env).
Implicit Types handle : TensorHandle tensorflow_Tensor.

(** The handle is on an XLA device whose padded-shape function gives
    [padded_shape]: the call reaches line 82 with that descriptor. *)
Definition resolves_padded_shape handle (padded_shape : Shape) : Prop :=
  ∃ tensor xla_device,
    Tensor handle = (Status_OK, tensor) ∧
    xla_device_of env handle = Some xla_device ∧
    padded_shape_fn xla_device tensor = (Status_OK, padded_shape).

(** The rank lookup and every dimension lookup succeed, with the logical
    shape [ds]. *)
Definition lookups_succeed handle (ds : list Z) : Prop :=
  NumDims handle = (Status_OK, length ds) ∧
  ∀ (i : nat) d, ds !! i = Some d → Dim handle (Z.of_nat i) = (Status_OK, d).

(** The dimension lookup at [i] is the first one that fails, with [status]. *)
Definition first_failing_dim handle (i : nat) (status : Status) : Prop :=
  (∀ j : nat, (j < i)%nat → ok (Dim handle (Z.of_nat j)).1 = true) ∧
  (Dim handle (Z.of_nat i)).1 = status ∧ ok status = false.

(** The dimension sizes read by the first [i] lookups. *)
Definition dims_read handle (i : nat) : list Z :=
  (λ j, (Dim handle j).2) <$> seqZ 0 (Z.of_nat i).

(** Where the logical shape reader fails: at the rank lookup ([None]) or at
    the dimension lookup [i], the first one to fail ([Some i]). *)
Definition lookup_fails_at handle (place : option nat) (status : Status) : Prop :=
  match place with
  | None => (NumDims handle).1 = status ∧ ok status = false
  | Some i =>
      ∃ rank, NumDims handle = (Status_OK, rank) ∧ (i < rank)%nat ∧
              first_failing_dim handle i status
  end.

(** The lines written to the log on the XLA path. *)
Definition logged handle (padded_shape : Shape) : list LogLine :=
  (log_padded_shape env handle padded_shape Status_OK).1.

(** What lines 130-143 return for a flat descriptor. *)
Definition flat_debug_info handle (padded_shape normalized : Shape)
    : result (list LogLine * (option TFE_TensorDebugInfo * Status)) :=
  dev_dims ← padded_dev_dims normalized;
  Returns (logged handle padded_shape, (Some {| dev_dims := dev_dims |}, Status_OK)).

(** The tuple descriptors that are not a supported encoding, each with the
    invalid-argument status that describes it: a tuple that does not have
    two elements, a pair with a tuple in it, a pair of different shapes. *)
Inductive tuple_rejected : Shape → Status → Prop :=
| unsupported_arity ts :
    length ts ≠ 2%nat →
    tuple_rejected (TupleShape ts)
      (InvalidArgument "XlaTensors should only contain tuples of size 2. Shape: "
         (DebugString env (TupleShape ts)))
| nested_tuple shape0 shape1 :
    IsTuple shape0 = true ∨ IsTuple shape1 = true →
    tuple_rejected (TupleShape [shape0; shape1])
      (InvalidArgument "XlaTensors should not contain nested tuples. Shape: "
         (DebugString env (TupleShape [shape0; shape1])))
| unequal_pair shape0 shape1 :
    IsTuple shape0 = false → IsTuple shape1 = false → shape0 ≠ shape1 →
    tuple_rejected (TupleShape [shape0; shape1])
      (InvalidArgument "Subshapes of XlaTensors should be the same. Shape: "
         (DebugString env (TupleShape [shape0; shape1]))).

(** The stages of [TensorDebugInfo] that can fail, each with the status it
    fails with. *)
Inductive stage_fails handle : Status → Prop :=
| tensor_resolution_fails status tensor :
    Tensor handle = (status, tensor) → ok status = false →
    stage_fails handle status
| rank_lookup_fails tensor status rank :
    Tensor handle = (Status_OK, tensor) → xla_device_of env handle = None →
    NumDims handle = (status, rank) → ok status = false →
    stage_fails handle status
| dim_lookup_fails tensor rank i status :
    Tensor handle = (Status_OK, tensor) → xla_device_of env handle = None →
    NumDims handle = (Status_OK, rank) → (i < rank)%nat →
    first_failing_dim handle i status →
    stage_fails handle status
| padded_shape_fn_fails tensor xla_device status padded_shape :
    Tensor handle = (Status_OK, tensor) →
    xla_device_of env handle = Some xla_device →
    padded_shape_fn xla_device tensor = (status, padded_shape) →
    ok status = false →
    stage_fails handle status
| tuple_validation_fails padded_shape status :
    resolves_padded_shape handle padded_shape →
    tuple_rejected padded_shape status →
    stage_fails handle status.

End notions.

(** ** Concrete handles, devices and shapes *)

Module examples.

(** A build with the XLA branch and level-3 logging on. *)
Definition env_xla : Env :=
  {| TENSORFLOW_EAGER_USE_XLA := true;
     VLOG_IS_ON := λ level, bool_decide (level ≤ 3);
     DebugString := λ s, if IsTuple s then "(tuple)" else "array" |}.

(** A build without the XLA branch. *)
Definition env_plain : Env :=
  {| TENSORFLOW_EAGER_USE_XLA := false;
     VLOG_IS_ON := λ _, false;
     DebugString := λ _, "" |}.

Definition not_ready : Status :=
  Status_Error UNAVAILABLE "Unable to get a tensor for a remote device".

Definition no_such_dim : Status := Status_Error OUT_OF_RANGE "no such dimension".

(** The lookups of a handle with logical shape [ds]. *)
Definition dim_of (ds : list Z) (i : Z) : Status * Z :=
  match at_index ds i with
  | Some d => (Status_OK, d)
  | None => (no_such_dim, 0)
  end.

(** A resolved handle of logical shape [ds] on the device [dev]. *)
Definition resolved (dev : Device unit) (ds : list Z) : TensorHandle unit :=
  {| Tensor := (Status_OK, tt); NumDims := (Status_OK, length ds);
     Dim := dim_of ds; device := dev |}.

(** A handle whose shape is known but whose tensor cannot be resolved. *)
Definition unresolved (dev : Device unit) (ds : list Z) : TensorHandle unit :=
  {| Tensor := (not_ready, tt); NumDims := (Status_OK, length ds);
     Dim := dim_of ds; device := dev |}.

(** A handle that reports [rank] dimensions but only knows the sizes [ds]. *)
Definition truncated (dev : Device unit) (rank : nat) (ds : list Z)
    : TensorHandle unit :=
  {| Tensor := (Status_OK, tt); NumDims := (Status_OK, rank);
     Dim := dim_of ds; device := dev |}.

(** A handle whose rank lookup fails. *)
Definition rankless (dev : Device unit) : TensorHandle unit :=
  {| Tensor := (Status_OK, tt); NumDims := (not_ready, 0%nat);
     Dim := λ _, (not_ready, 0); device := dev |}.

(** An XLA device that reports the padded shape [s] for every tensor. *)
Definition xla_reporting (s : Shape) : Device unit :=
  Device_Xla {| padded_shape_fn := λ _, (Status_OK, s) |}.

(** An XLA device whose padded-shape function fails. *)
Definition xla_failing : Device unit :=
  Device_Xla {| padded_shape_fn := λ _, (not_ready, TupleShape []) |}.

Definition f32 : Z := 11.

(** [f32[2,3,4]] with dimension 0 minor-most. *)
Definition shape_234 : Shape := ArrayShape f32 [2; 3; 4] [0; 1; 2].

(** A layout that names dimension 0 twice. *)
Definition shape_repeated : Shape := ArrayShape f32 [2; 3] [0; 0].

(** A layout that names a dimension the shape does not have. *)
Definition shape_outside : Shape := ArrayShape f32 [2; 3] [0; 5].

End examples.

(** ** The C entry point *)

Section c_api.
Context {tensorflow_Tensor : Type}.

(** [TFE_TensorHandle]: [h->handle] is the handle interface, identified here
    with the tensor handle ([handle_]) its methods work on. *)
Record TFE_TensorHandle := { handle : TensorHandle tensorflow_Tensor }.

(** Lines 55-58: the call is forwarded to the handle, with [&status->status]
    as the out-status. *)
Definition TFE_TensorHandleTensorDebugInfo (env : Env) (h : TFE_TensorHandle)
    : result (list LogLine * (option TFE_TensorDebugInfo * Status)) :=
  TensorDebugInfo env (handle h).

End c_api.

Arguments TFE_TensorHandle : clear implicits.

(** A position of the reordering loop whose read goes wrong: the layout has
    no entry there, or the entry is not an index of a dimension. *)
Definition unsafe_position (s : Shape) (i : Z) : Prop :=
  0 ≤ i < dimensions_size s ∧
  ∀ dim_index, minor_to_major s i = Some dim_index →
               ¬ (0 ≤ dim_index < dimensions_size s).

(** The row-major layout of a rank, [rank-1, ..., 1, 0] (the last dimension
    minor-most), and the column-major one, [0, 1, ..., rank-1]. *)
Definition row_major (rank : Z) : list Z := reverse (seqZ 0 rank).
Definition column_major (rank : Z) : list Z := seqZ 0 rank.

Module more_examples.

(** The build of [examples.env_xla] with verbose logging off. *)
Definition env_quiet : Env :=
  {| TENSORFLOW_EAGER_USE_XLA := true;
     VLOG_IS_ON := λ _, false;
     DebugString := DebugString examples.env_xla |}.

(** [f32[2,3,4]] in row-major layout. *)
Definition shape_234_row_major : Shape :=
  ArrayShape examples.f32 [2; 3; 4] [2; 1; 0].

End more_examples.

(** ** Properties *)

Lemma ok_true (status : Status) : ok status = true ↔ status = Status_OK.
Proof. destruct status; simpl; split; congruence. Qed.

Lemma ok_false (status : Status) : ok status = false ↔ status ≠ Status_OK.
Proof. destruct status; simpl; split; congruence. Qed.

Lemma at_index_of_nat {A} (l : list A) (i : nat) : at_index l (Z.of_nat i) = l !! i.
Proof.
  unfold at_index. case_decide; [|lia]. by rewrite Nat2Z.id.
Qed.

Lemma at_index_Some {A} (l : list A) (i : Z) (x : A) :
  at_index l i = Some x ↔ 0 ≤ i < Z.of_nat (length l) ∧ l !! Z.to_nat i = Some x.
Proof.
  unfold at_index. case_decide.
  - split; [|tauto]. intros H'. split; [|done].
    apply lookup_lt_Some in H'. lia.
  - split; [done|]. lia.
Qed.

Lemma at_index_in_range {A} (l : list A) (i : Z) :
  0 ≤ i < Z.of_nat (length l) → is_Some (at_index l i).
Proof.
  intros Hi. unfold at_index. case_decide; [|lia].
  apply lookup_lt_is_Some. lia.
Qed.

(** [Equal] decides equality of shapes. *)
Lemma Equal_eq (a b : Shape) : Equal a b = true ↔ a = b.
Proof.
  revert b. induction a as [ta da la|sa IH] using Shape_ind; intros [tb db lb|sb]; simpl;
    try (split; [discriminate|congruence]).
  - rewrite !andb_true_iff, !bool_decide_eq_true. split; [intros [[-> ->] ->]; done|].
    intros [= -> -> ->]. done.
  - revert sb. induction IH as [|x xs Hx _ IHxs]; intros [|y ys]; simpl;
      try (split; [discriminate|congruence]); [done|].
    rewrite andb_true_iff, Hx. specialize (IHxs ys). rewrite IHxs.
    split; [intros [-> [= ->]]; done|]. intros [= -> ->]. done.
Qed.

Section properties.
Context {tensorflow_Tensor : Type} (env : Env).
Implicit Types handle : TensorHandle tensorflow_Tensor.

(** *** The logical shape reader *)

Lemma TensorShapeAsVector_loop_ok handle (ds : list Z) :
  ∀ (i : nat) shape status,
    (∀ (k : nat) d, ds !! k = Some d → Dim handle (Z.of_nat (i + k)) = (Status_OK, d)) →
    TensorShapeAsVector_loop handle (length ds) (Z.of_nat i) shape status
    = (shape ++ ds, match ds with [] => status | _ => Status_OK end).
Proof.
  induction ds as [|d ds IH]; intros i shape status Hdim; simpl.
  { by rewrite app_nil_r. }
  rewrite <- (Nat.add_0_r i) at 1. rewrite (Hdim 0%nat d eq_refl). simpl.
  replace (Z.of_nat i + 1) with (Z.of_nat (S i)) by lia.
  rewrite IH.
  - rewrite <- app_assoc. simpl. f_equal. by destruct ds.
  - intros k d' Hk. replace (S i + k)%nat with (i + S k)%nat by lia.
    by apply Hdim.
Qed.

Lemma TensorShapeAsVector_loop_fail handle (k : nat) status :
  ∀ (n i : nat) shape status0,
    (k < n)%nat →
    (∀ j : nat, (j < k)%nat → ok (Dim handle (Z.of_nat (i + j))).1 = true) →
    (Dim handle (Z.of_nat (i + k))).1 = status → ok status = false →
    TensorShapeAsVector_loop handle n (Z.of_nat i) shape status0
    = (shape ++ ((λ j, (Dim handle j).2) <$> seqZ (Z.of_nat i) (Z.of_nat k)), status).
Proof.
  induction k as [|k IH]; intros n i shape status0 Hn Hbefore Hat Hfail.
  - destruct n as [|n]; [lia|]. simpl.
    rewrite Nat.add_0_r in Hat. destruct (Dim handle (Z.of_nat i)) as [st d].
    simpl in Hat. subst st. rewrite Hfail. simpl. by rewrite app_nil_r.
  - destruct n as [|n]; [lia|]. simpl.
    pose proof (Hbefore 0%nat ltac:(lia)) as H0. rewrite Nat.add_0_r in H0.
    destruct (Dim handle (Z.of_nat i)) as [st d] eqn:Hd. simpl in H0.
    rewrite H0. simpl.
    replace (Z.of_nat i + 1) with (Z.of_nat (S i)) by lia.
    rewrite (IH n (S i) _ st); [| lia | | |done].
    + rewrite <- app_assoc. f_equal.
      replace (Z.of_nat (S k)) with (Z.succ (Z.of_nat k)) by lia.
      rewrite (seqZ_cons (Z.of_nat i)) by lia. simpl. rewrite Hd. simpl.
      replace (Z.succ (Z.of_nat i)) with (Z.of_nat (S i)) by lia.
      by rewrite Z.pred_succ.
    + intros j Hj. replace (S i + j)%nat with (i + S j)%nat by lia.
      apply Hbefore. lia.
    + replace (S i + k)%nat with (i + S k)%nat by lia. done.
Qed.

Lemma TensorShapeAsVector_ok handle ds :
  lookups_succeed handle ds → TensorShapeAsVector handle = (ds, Status_OK).
Proof.
  intros [Hrank Hdims]. unfold TensorShapeAsVector. rewrite Hrank. simpl.
  change 0 with (Z.of_nat 0).
  rewrite (TensorShapeAsVector_loop_ok handle ds 0 [] Status_OK); [|done].
  by destruct ds.
Qed.

Lemma TensorShapeAsVector_rank_fails handle status rank :
  NumDims handle = (status, rank) → ok status = false →
  TensorShapeAsVector handle = ([], status).
Proof.
  intros Hrank Hfail. unfold TensorShapeAsVector. by rewrite Hrank, Hfail.
Qed.

Lemma TensorShapeAsVector_dim_fails handle rank (i : nat) status :
  NumDims handle = (Status_OK, rank) → (i < rank)%nat →
  first_failing_dim handle i status →
  TensorShapeAsVector handle = (dims_read handle i, status).
Proof.
  intros Hrank Hi (Hbefore & Hat & Hfail).
  unfold TensorShapeAsVector. rewrite Hrank. simpl.
  change 0 with (Z.of_nat 0).
  by rewrite (TensorShapeAsVector_loop_fail handle i status rank 0 [] Status_OK).
Qed.

Lemma length_dims_read handle (i : nat) : length (dims_read handle i) = i.
Proof. unfold dims_read. rewrite length_fmap, length_seqZ. lia. Qed.

(** C4 (amended): when the rank lookup fails, [TensorShapeAsVector] returns
    the failing status and the empty vector; when the dimension lookup at
    [i] is the first to fail, it returns that lookup's status and the [i]
    sizes read before it, which is the empty vector only for [i = 0]. *)
Theorem TensorShapeAsVector_failure handle (place : option nat) status :
  lookup_fails_at handle place status →
  TensorShapeAsVector handle
    = (match place with None => [] | Some i => dims_read handle i end, status)
  ∧ ok status = false
  ∧ length (TensorShapeAsVector handle).1
    = match place with None => 0%nat | Some i => i end.
Proof.
  destruct place as [i|]; simpl.
  - intros (rank & Hrank & Hi & Hdim).
    rewrite (TensorShapeAsVector_dim_fails handle rank i status Hrank Hi Hdim).
    split_and!; [done|apply Hdim|apply length_dims_read].
  - intros [Hst Hfail]. destruct (NumDims handle) as [st rank] eqn:Hrank.
    simpl in Hst. subst st.
    by rewrite (TensorShapeAsVector_rank_fails handle status rank Hrank Hfail).
Qed.

(** *** The default path *)

Lemma TensorDebugInfo_default handle tensor :
  Tensor handle = (Status_OK, tensor) → xla_device_of env handle = None →
  TensorDebugInfo env handle = default_debug_info handle.
Proof. intros Ht Hx. unfold TensorDebugInfo. by rewrite Ht, Hx. Qed.

Lemma xla_device_of_other handle :
  device handle = Device_Other → xla_device_of env handle = None.
Proof. intros Hd. unfold xla_device_of. rewrite Hd. by destruct TENSORFLOW_EAGER_USE_XLA. Qed.

(** C3 (amended): for a handle that is not on an XLA device, whose tensor
    resolves and whose rank and dimension lookups all succeed with logical
    shape [ds], [TensorDebugInfo] returns a container with OK status, and
    the container holds [ds] unchanged. *)
Theorem ordinary_device_identity handle (ds : list Z) :
  device handle = Device_Other →
  ok (Tensor handle).1 = true →
  lookups_succeed handle ds →
  TensorDebugInfo env handle = Returns ([], (Some {| dev_dims := ds |}, Status_OK)).
Proof.
  intros Hdev Ht Hds. destruct (Tensor handle) as [st tensor] eqn:Htensor.
  simpl in Ht. apply ok_true in Ht. subst st.
  rewrite (TensorDebugInfo_default handle tensor Htensor (xla_device_of_other _ Hdev)).
  unfold default_debug_info. by rewrite (TensorShapeAsVector_ok handle ds Hds).
Qed.

(** *** The XLA path *)

(** Level-3 logging leaves [*status] OK, whatever the diagnostic lookup
    does. *)
Lemma log_padded_shape_status handle padded_shape :
  (log_padded_shape env handle padded_shape Status_OK).2 = Status_OK.
Proof.
  unfold log_padded_shape. destruct (VLOG_IS_ON env 3); [|done].
  destruct (TensorShapeAsVector handle) as [shape status].
  destruct status; done.
Qed.

Lemma TensorDebugInfo_xla handle padded_shape :
  resolves_padded_shape env handle padded_shape →
  TensorDebugInfo env handle
  = (normalized ← normalize_tuple env padded_shape;
     match normalized with
     | inl status => Returns (logged env handle padded_shape, (None, status))
     | inr normalized => flat_debug_info env handle padded_shape normalized
     end).
Proof.
  intros (tensor & xla_device & Ht & Hx & Hfn).
  unfold TensorDebugInfo, xla_debug_info, flat_debug_info, logged.
  rewrite Ht, Hx. simpl. rewrite Hfn. simpl.
  by destruct (log_padded_shape env handle padded_shape Status_OK) as [log status].
Qed.

Lemma normalize_tuple_flat padded_shape :
  IsTuple padded_shape = false →
  normalize_tuple env padded_shape = Returns (inr padded_shape).
Proof. intros H. unfold normalize_tuple. by rewrite H. Qed.

Lemma TensorDebugInfo_flat handle padded_shape :
  resolves_padded_shape env handle padded_shape →
  IsTuple padded_shape = false →
  TensorDebugInfo env handle = flat_debug_info env handle padded_shape padded_shape.
Proof.
  intros Hres Hflat. rewrite (TensorDebugInfo_xla _ _ Hres).
  by rewrite (normalize_tuple_flat _ Hflat).
Qed.

(** The log and the outcome of the XLA path, separately: the outcome does
    not mention the logical shape lookups. *)
Lemma TensorDebugInfo_xla_outcome handle padded_shape :
  resolves_padded_shape env handle padded_shape →
  snd <$> TensorDebugInfo env handle
  = (normalized ← normalize_tuple env padded_shape;
     match normalized with
     | inl status => Returns (None, status)
     | inr normalized =>
         dev_dims ← padded_dev_dims normalized;
         Returns (Some {| dev_dims := dev_dims |}, Status_OK)
     end).
Proof.
  intros Hres. rewrite (TensorDebugInfo_xla _ _ Hres).
  destruct (normalize_tuple env padded_shape) as [[status|normalized]|]; try done.
  simpl. unfold flat_debug_info. by destruct (padded_dev_dims normalized).
Qed.

(** The three rejections of lines 94-121 and the collapse of line 127. *)
Lemma normalize_tuple_arity ts :
  length ts ≠ 2%nat →
  normalize_tuple env (TupleShape ts)
  = Returns (inl (InvalidArgument
      "XlaTensors should only contain tuples of size 2. Shape: "
      (DebugString env (TupleShape ts)))).
Proof.
  intros Hlen. unfold normalize_tuple. simpl.
  destruct (Z.eqb_spec (Z.of_nat (length ts)) 2) as [Heq|_]; [lia|done].
Qed.

Lemma normalize_tuple_nested shape0 shape1 :
  IsTuple shape0 = true ∨ IsTuple shape1 = true →
  normalize_tuple env (TupleShape [shape0; shape1])
  = Returns (inl (InvalidArgument
      "XlaTensors should not contain nested tuples. Shape: "
      (DebugString env (TupleShape [shape0; shape1])))).
Proof.
  intros Hnested. unfold normalize_tuple. simpl.
  apply orb_true_iff in Hnested. by rewrite Hnested.
Qed.

Lemma normalize_tuple_unequal shape0 shape1 :
  IsTuple shape0 = false → IsTuple shape1 = false → shape0 ≠ shape1 →
  normalize_tuple env (TupleShape [shape0; shape1])
  = Returns (inl (InvalidArgument
      "Subshapes of XlaTensors should be the same. Shape: "
      (DebugString env (TupleShape [shape0; shape1])))).
Proof.
  intros H0 H1 Hne. unfold normalize_tuple. simpl. rewrite H0, H1. simpl.
  destruct (Equal shape0 shape1) eqn:Heq; [|done].
  by apply Equal_eq in Heq.
Qed.

Lemma normalize_tuple_equal shape0 :
  IsTuple shape0 = false →
  normalize_tuple env (TupleShape [shape0; shape0]) = Returns (inr shape0).
Proof.
  intros H0. unfold normalize_tuple. simpl. rewrite H0. simpl.
  by rewrite (proj2 (Equal_eq shape0 shape0) eq_refl).
Qed.

(** Lines 94-121 reject exactly the unsupported tuple descriptors. *)
Lemma normalize_tuple_rejected padded_shape status :
  normalize_tuple env padded_shape = Returns (inl status)
  ↔ tuple_rejected env padded_shape status.
Proof.
  split.
  - destruct padded_shape as [t ds m|ts]; [done|].
    destruct (decide (length ts = 2%nat)) as [Hlen|Hlen].
    + destruct ts as [|shape0 [|shape1 [|? ?]]]; try done.
      destruct (IsTuple shape0) eqn:H0.
      { rewrite normalize_tuple_nested by (by left). intros [= <-].
        constructor. by left. }
      destruct (IsTuple shape1) eqn:H1.
      { rewrite normalize_tuple_nested by (by right). intros [= <-].
        constructor. by right. }
      destruct (Equal shape0 shape1) eqn:Heq.
      * apply Equal_eq in Heq as ->. by rewrite normalize_tuple_equal.
      * assert (shape0 ≠ shape1) as Hne
          by (intros E; apply Equal_eq in E; congruence).
        rewrite normalize_tuple_unequal by done. intros [= <-]. by constructor.
    + rewrite normalize_tuple_arity by done. intros [= <-]. by constructor.
  - intros [ts Hlen|shape0 shape1 Hnested|shape0 shape1 H0 H1 Hne].
    + by apply normalize_tuple_arity.
    + by apply normalize_tuple_nested.
    + by apply normalize_tuple_unequal.
Qed.

(** Tuple validation never runs out of the tuple, and what it rejects it
    rejects as an invalid argument; what it lets through is flat whenever
    the descriptor was flat or a tuple. *)
Lemma normalize_tuple_returns padded_shape :
  ∃ normalized, normalize_tuple env padded_shape = Returns normalized ∧
    match normalized with
    | inl status => ∃ message, status = Status_Error INVALID_ARGUMENT message
    | inr shape => IsTuple shape = false
    end.
Proof.
  destruct padded_shape as [t ds m|ts].
  { eexists. split; [by apply normalize_tuple_flat|done]. }
  destruct (decide (length ts = 2%nat)) as [Hlen|Hlen].
  - destruct ts as [|shape0 [|shape1 [|? ?]]]; try done.
    destruct (IsTuple shape0) eqn:H0.
    { eexists. split; [apply normalize_tuple_nested; by left|]. by eexists. }
    destruct (IsTuple shape1) eqn:H1.
    { eexists. split; [apply normalize_tuple_nested; by right|]. by eexists. }
    destruct (Equal shape0 shape1) eqn:Heq;
      [apply Equal_eq in Heq as ->
      |assert (shape0 ≠ shape1) as Hne
         by (intros E; apply Equal_eq in E; congruence)].
    + eexists. split; [by apply normalize_tuple_equal|done].
    + eexists. split; [by apply normalize_tuple_unequal|]. by eexists.
  - eexists. split; [by apply normalize_tuple_arity|]. by eexists.
Qed.

(** C1: when the padded shape is a tuple, [TensorDebugInfo] returns no
    container and an invalid-argument status if the tuple does not have
    exactly two elements, if one of the two is itself a tuple, or if the
    two differ; if the two are equal and flat, the descriptor becomes the
    first of them ([normalize_tuple] gives it) and the call continues with
    the reordering of that sub-shape: it returns what it returns for a
    handle whose device reports the sub-shape itself. *)
Theorem tuple_normalization handle (ts : list Shape) :
  resolves_padded_shape env handle (TupleShape ts) →
  let padded_shape := TupleShape ts in
  let rejected message :=
    TensorDebugInfo env handle
    = Returns (logged env handle padded_shape,
               (None, Status_Error INVALID_ARGUMENT
                        (message +:+ DebugString env padded_shape))) in
  (length ts ≠ 2%nat →
     rejected "XlaTensors should only contain tuples of size 2. Shape: ") ∧
  (∀ shape0 shape1, ts = [shape0; shape1] →
     IsTuple shape0 = true ∨ IsTuple shape1 = true →
     rejected "XlaTensors should not contain nested tuples. Shape: ") ∧
  (∀ shape0 shape1, ts = [shape0; shape1] →
     IsTuple shape0 = false → IsTuple shape1 = false → shape0 ≠ shape1 →
     rejected "Subshapes of XlaTensors should be the same. Shape: ") ∧
  (∀ shape0 shape1, ts = [shape0; shape1] →
     IsTuple shape0 = false → IsTuple shape1 = false → shape0 = shape1 →
     normalize_tuple env padded_shape = Returns (inr shape0) ∧
     TensorDebugInfo env handle = flat_debug_info env handle padded_shape shape0 ∧
     ∀ handle', resolves_padded_shape env handle' shape0 →
       snd <$> TensorDebugInfo env handle = snd <$> TensorDebugInfo env handle').
Proof.
  intros Hres. simpl. split_and!.
  - intros Hlen. by rewrite (TensorDebugInfo_xla _ _ Hres), normalize_tuple_arity.
  - intros shape0 shape1 -> Hnested.
    by rewrite (TensorDebugInfo_xla _ _ Hres), normalize_tuple_nested.
  - intros shape0 shape1 -> H0 H1 Hne.
    by rewrite (TensorDebugInfo_xla _ _ Hres), normalize_tuple_unequal.
  - intros shape0 shape1 -> H0 _ <-.
    pose proof (normalize_tuple_equal shape0 H0) as Hnorm.
    split_and!; [done|by rewrite (TensorDebugInfo_xla _ _ Hres), Hnorm|].
    intros handle' Hres'.
    rewrite (TensorDebugInfo_xla_outcome _ _ Hres), (TensorDebugInfo_xla_outcome _ _ Hres').
    by rewrite Hnorm, (normalize_tuple_flat _ H0).
Qed.

(** *** Dimension reordering *)

Lemma dimensions_in_range s index :
  0 ≤ index < dimensions_size s →
  dimensions s index = Some (dim_at s index).
Proof.
  intros Hi. unfold dim_at.
  destruct (at_index_in_range (dimensions_list s) index Hi) as [d Hd].
  unfold dimensions. by rewrite Hd.
Qed.

Lemma valid_layout_length s :
  valid_layout s → length (minor_to_major_list s) = length (dimensions_list s).
Proof.
  unfold valid_layout. intros Hvalid.
  rewrite (Permutation_length Hvalid), length_seqZ.
  unfold dimensions_size. lia.
Qed.

Lemma valid_layout_in_range s :
  valid_layout s →
  Forall (λ index, 0 ≤ index < dimensions_size s) (minor_to_major_list s).
Proof.
  unfold valid_layout. intros Hvalid. rewrite Hvalid.
  apply Forall_seqZ. intros; lia.
Qed.

(** Reading the dimension sizes at the indices [0 .. rank-1] gives the
    dimension list back. *)
Lemma dim_at_seqZ s : dim_at s <$> seqZ 0 (dimensions_size s) = dimensions_list s.
Proof.
  apply list_eq. intros i. rewrite list_lookup_fmap.
  destruct (decide (i < length (dimensions_list s))%nat) as [Hi|Hi].
  - rewrite lookup_seqZ_lt by (unfold dimensions_size; lia). simpl.
    unfold dim_at, dimensions. rewrite Z.add_0_l, at_index_of_nat.
    destruct (lookup_lt_is_Some_2 _ _ Hi) as [d Hd]. by rewrite Hd.
  - rewrite lookup_seqZ_ge by (unfold dimensions_size; lia). simpl.
    symmetry. apply lookup_ge_None. lia.
Qed.

(** The loop of lines 137-140 over a layout whose entries are in range:
    the last [n] iterations push the sizes named by the first [n] layout
    entries, last entry first. *)
Lemma reorder_loop_in_range s :
  Forall (λ index, 0 ≤ index < dimensions_size s) (minor_to_major_list s) →
  ∀ (n : nat) dev_dims,
    (n ≤ length (minor_to_major_list s))%nat →
    reorder_loop s n dev_dims
    = Returns (dev_dims ++ reverse (dim_at s <$> take n (minor_to_major_list s))).
Proof.
  intros Hrange. induction n as [|i IH]; intros dev_dims Hn; simpl.
  { by rewrite app_nil_r. }
  destruct (lookup_lt_is_Some_2 (minor_to_major_list s) i ltac:(lia)) as [index Hindex].
  unfold minor_to_major. rewrite at_index_of_nat, Hindex. simpl.
  rewrite dimensions_in_range by (by eapply (proj1 (Forall_lookup _ _) Hrange)).
  simpl. rewrite IH by lia.
  rewrite (take_S_r _ _ _ Hindex), fmap_app, reverse_app.
  by rewrite <- app_assoc.
Qed.

Lemma padded_dev_dims_valid s :
  dimensions_size s ≠ 1 → valid_layout s →
  padded_dev_dims s = Returns (reverse (dim_at s <$> minor_to_major_list s)).
Proof.
  intros Hrank Hvalid. unfold padded_dev_dims.
  destruct (Z.eqb_spec (dimensions_size s) 1) as [?|_]; [done|].
  rewrite (reorder_loop_in_range s (valid_layout_in_range s Hvalid)).
  - simpl. rewrite take_ge; [done|].
    rewrite (valid_layout_length s Hvalid). unfold dimensions_size. lia.
  - rewrite (valid_layout_length s Hvalid). unfold dimensions_size. lia.
Qed.

(** C2 (amended): for a flat padded shape of rank R > 1 whose layout is a
    permutation of the dimension indices [0 .. R-1], [TensorDebugInfo] returns with OK status a
    container whose sequence takes, for i from R-1 down to 0, the dimension
    size at index minor_to_major(i): its k-th entry is the size of the
    dimension at minor-to-major position R-1-k (major-most first), its
    length is R, and it is a permutation of the shape's dimension sizes. *)
Theorem reorder_major_to_minor handle (t : Z) (ds m : list Z) :
  let s := ArrayShape t ds m in
  resolves_padded_shape env handle s →
  1 < dimensions_size s →
  valid_layout s →
  ∃ out,
    padded_dev_dims s = Returns out ∧
    TensorDebugInfo env handle
    = Returns (logged env handle s, (Some {| dev_dims := out |}, Status_OK)) ∧
    out = (λ i, dim_at s (default 0 (minor_to_major s i)))
            <$> reverse (seqZ 0 (dimensions_size s)) ∧
    (∀ k : nat, (k < length ds)%nat →
       out !! k = dim_at s <$> minor_to_major s (dimensions_size s - 1 - Z.of_nat k)) ∧
    length out = length ds ∧
    out ≡ₚ ds.
Proof.
  intros s Hres Hrank Hvalid.
  exists (reverse (dim_at s <$> m)).
  pose proof (valid_layout_length s Hvalid) as Hlen. simpl in Hlen.
  assert (padded_dev_dims s = Returns (reverse (dim_at s <$> m))) as Hdims.
  { apply padded_dev_dims_valid; [lia|done]. }
  split_and!.
  - done.
  - rewrite (TensorDebugInfo_flat _ _ Hres eq_refl). unfold flat_debug_info.
    by rewrite Hdims.
  - rewrite fmap_reverse. f_equal.
    apply list_eq. intros i. rewrite !list_lookup_fmap.
    destruct (decide (i < length m)%nat) as [Hi|Hi].
    + rewrite lookup_seqZ_lt by (unfold dimensions_size; simpl; lia). simpl.
      unfold minor_to_major. rewrite Z.add_0_l, at_index_of_nat. simpl.
      destruct (lookup_lt_is_Some_2 _ _ Hi) as [index Hindex]. by rewrite Hindex.
    + rewrite lookup_seqZ_ge by (unfold dimensions_size; simpl; lia).
      rewrite lookup_ge_None_2 by lia. done.
  - intros k Hk. rewrite reverse_lookup by (rewrite length_fmap; lia).
    rewrite length_fmap, list_lookup_fmap. unfold minor_to_major, dimensions_size. simpl.
    replace (Z.of_nat (length ds) - 1 - Z.of_nat k)
      with (Z.of_nat (length m - S k)) by lia.
    by rewrite at_index_of_nat.
  - by rewrite length_reverse, length_fmap.
  - rewrite reverse_Permutation. unfold valid_layout in Hvalid. simpl in Hvalid.
    rewrite Hvalid. by rewrite (dim_at_seqZ s).
Qed.

(** The loop has no test of its own: a layout position below [n] that is
    unset, or whose entry is not a dimension index, ends it out of range. *)
Lemma reorder_loop_out_of_range s :
  ∀ (n : nat) dev_dims,
    (∃ i : nat, (i < n)%nat ∧
       ∀ dim_index, minor_to_major s (Z.of_nat i) = Some dim_index →
                    ¬ (0 ≤ dim_index < dimensions_size s)) →
    reorder_loop s n dev_dims = OutOfRange.
Proof.
  induction n as [|n IH]; intros dev_dims (i & Hi & Hbad); [lia|]. simpl.
  destruct (minor_to_major s (Z.of_nat n)) as [dim_index|] eqn:Hindex; [|done].
  simpl. destruct (dimensions s dim_index) as [d|] eqn:Hd; [|done]. simpl.
  apply IH. exists i. split; [|done].
  destruct (decide (i = n)) as [->|]; [|lia].
  apply at_index_Some in Hd as [Hrange _]. by destruct (Hbad dim_index Hindex).
Qed.

(** C10: lines 138-139 read [minor_to_major(i)] and [dimensions(dim_index)]
    with no test of the index, so that a layout position that is unset or
    names no dimension ends the loop out of range; when the rank is above 1
    and the layout is a permutation of [0 .. rank-1], every index the loop
    uses is in range, both reads succeed at every position, and the loop
    returns. *)
Theorem reordering_index_safety (s : Shape) :
  1 < dimensions_size s →
  (valid_layout s →
     (∀ i, 0 ≤ i < dimensions_size s →
        ∃ dim_index d,
          minor_to_major s i = Some dim_index ∧
          0 ≤ dim_index < dimensions_size s ∧
          dimensions s dim_index = Some d) ∧
     (∃ dev_dims, padded_dev_dims s = Returns dev_dims)) ∧
  ((∃ i, 0 ≤ i < dimensions_size s ∧
      ∀ dim_index, minor_to_major s i = Some dim_index →
                   ¬ (0 ≤ dim_index < dimensions_size s)) →
   padded_dev_dims s = OutOfRange).
Proof.
  intros Hrank. split.
  - intros Hvalid.
    pose proof (valid_layout_length s Hvalid) as Hlen.
    pose proof (valid_layout_in_range s Hvalid) as Hrange.
    split.
    + intros i Hi.
      destruct (at_index_in_range (minor_to_major_list s) i) as [index Hindex].
      { unfold dimensions_size in Hi. lia. }
      assert (0 ≤ index < dimensions_size s) as Hin.
      { apply at_index_Some in Hindex as [_ Hindex].
        by eapply (proj1 (Forall_lookup _ _) Hrange). }
      exists index, (dim_at s index). split_and!; [done|lia|lia|].
      by apply dimensions_in_range.
    + eexists. apply padded_dev_dims_valid; [lia|done].
  - intros (i & Hi & Hbad). unfold padded_dev_dims.
    destruct (Z.eqb_spec (dimensions_size s) 1) as [?|_]; [lia|].
    apply reorder_loop_out_of_range. exists (Z.to_nat i).
    split; [lia|]. by rewrite Z2Nat.id by lia.
Qed.

(** C7: for a flat padded shape with the single dimension size [d], the
    container holds exactly [[d]], with OK status, whatever the layout
    list [m] is, the empty (unset) one included: the layout is not read. *)
Theorem rank_one_fast_path handle (t d : Z) (m : list Z) :
  resolves_padded_shape env handle (ArrayShape t [d] m) →
  padded_dev_dims (ArrayShape t [d] m) = Returns [d] ∧
  TensorDebugInfo env handle
  = Returns (logged env handle (ArrayShape t [d] m),
             (Some {| dev_dims := [d] |}, Status_OK)).
Proof.
  intros Hres. split; [done|].
  by rewrite (TensorDebugInfo_flat _ _ Hres eq_refl).
Qed.

(** C8: for a flat padded shape of rank 0, [TensorDebugInfo] returns OK
    status and a container with the empty dimension sequence. *)
Theorem rank_zero handle (t : Z) (m : list Z) :
  resolves_padded_shape env handle (ArrayShape t [] m) →
  TensorDebugInfo env handle
  = Returns (logged env handle (ArrayShape t [] m),
             (Some {| dev_dims := [] |}, Status_OK)).
Proof.
  intros Hres. by rewrite (TensorDebugInfo_flat _ _ Hres eq_refl).
Qed.

(** *** The container *)

(** The two accessors of lines 161-169 read the length and the entries of
    the container's sequence. *)
Lemma container_accessors (debug_info : TFE_TensorDebugInfo) (i : nat) :
  TFE_TensorDebugInfoOnDeviceNumDims debug_info
  = Z.of_nat (length (dev_dims debug_info)) ∧
  TFE_TensorDebugInfoOnDeviceDim debug_info (Z.of_nat i) = dev_dims debug_info !! i.
Proof.
  split; [done|]. unfold TFE_TensorDebugInfoOnDeviceDim. apply at_index_of_nat.
Qed.

(** *** Failures, statuses and the log *)

Lemma logged_lookup_failed handle padded_shape :
  ok (TensorShapeAsVector handle).2 = false → logged env handle padded_shape = [].
Proof.
  intros Hfail. unfold logged, log_padded_shape.
  destruct (VLOG_IS_ON env 3); [|done].
  destruct (TensorShapeAsVector handle) as [shape status]. simpl in Hfail.
  by rewrite Hfail.
Qed.

(** C5: two handles on the same XLA device with the same tensor, one whose
    logical shape lookup fails and one whose lookup succeeds: the pointer
    and the status returned are the same in both runs, and whenever the
    run with the successful lookup returns a container, the run with the
    failed lookup returns that container with OK status (and logs
    nothing). *)
Theorem logging_noninterference
    (handle_failing handle_succeeding : TensorHandle tensorflow_Tensor)
    (padded_shape : Shape) :
  Tensor handle_failing = Tensor handle_succeeding →
  device handle_failing = device handle_succeeding →
  resolves_padded_shape env handle_succeeding padded_shape →
  ok (TensorShapeAsVector handle_failing).2 = false →
  ok (TensorShapeAsVector handle_succeeding).2 = true →
  snd <$> TensorDebugInfo env handle_failing
  = snd <$> TensorDebugInfo env handle_succeeding ∧
  ∀ log debug_info status,
    TensorDebugInfo env handle_succeeding = Returns (log, (Some debug_info, status)) →
    TensorDebugInfo env handle_failing = Returns ([], (Some debug_info, Status_OK)).
Proof.
  intros Htensor Hdevice Hres Hfail _.
  assert (resolves_padded_shape env handle_failing padded_shape) as Hres'.
  { destruct Hres as (tensor & xla_device & Ht & Hx & Hfn).
    exists tensor, xla_device. unfold xla_device_of in *.
    by rewrite Htensor, Hdevice. }
  split.
  { by rewrite !(TensorDebugInfo_xla_outcome _ padded_shape). }
  intros log debug_info status.
  rewrite (TensorDebugInfo_xla _ _ Hres), (TensorDebugInfo_xla _ _ Hres').
  unfold flat_debug_info.
  rewrite (logged_lookup_failed handle_failing _ Hfail).
  destruct (normalize_tuple env padded_shape) as [[st|normalized]|]; simpl; try done.
  destruct (padded_dev_dims normalized) as [dims|]; simpl; [|done].
  by intros [= _ <- _].
Qed.

(** C6: whichever stage fails (tensor resolution, the rank lookup or a
    dimension lookup of the default path, the padded-shape function, the
    validation of a tuple), [TensorDebugInfo] returns the null pointer and
    the failing status of that stage. *)
Theorem failure_returns_no_container handle status :
  stage_fails env handle status →
  ok status = false ∧
  ∃ log, TensorDebugInfo env handle = Returns (log, (None, status)).
Proof.
  intros [st tensor Ht Hfail
         |tensor st rank Ht Hx Hrank Hfail
         |tensor rank i st Ht Hx Hrank Hi Hdim
         |tensor xla_device st padded_shape Ht Hx Hfn Hfail
         |padded_shape st Hres Hnorm].
  - split; [done|]. exists []. unfold TensorDebugInfo. by rewrite Ht, Hfail.
  - split; [done|]. exists [].
    rewrite (TensorDebugInfo_default _ _ Ht Hx). unfold default_debug_info.
    by rewrite (TensorShapeAsVector_rank_fails handle st rank Hrank Hfail), Hfail.
  - pose proof (proj2 (proj2 Hdim)) as Hfail.
    split; [done|]. exists [].
    rewrite (TensorDebugInfo_default _ _ Ht Hx). unfold default_debug_info.
    by rewrite (TensorShapeAsVector_dim_fails handle rank i st Hrank Hi Hdim), Hfail.
  - split; [done|]. exists [].
    unfold TensorDebugInfo, xla_debug_info. rewrite Ht, Hx. simpl.
    by rewrite Hfn, Hfail.
  - split; [by destruct Hnorm|]. eexists.
    apply normalize_tuple_rejected in Hnorm.
    rewrite (TensorDebugInfo_xla _ _ Hres), Hnorm. done.
Qed.

(** C9: whenever [TensorDebugInfo] returns, the pointer is non-null exactly
    when the status it has set is OK; and the status that comes with a
    container is [Status::OK()] itself, also after a diagnostic lookup
    whose error was dropped. *)
Theorem result_status_coupling handle log ret status :
  TensorDebugInfo env handle = Returns (log, (ret, status)) →
  (is_Some ret ↔ ok status = true) ∧ (is_Some ret → status = Status_OK).
Proof.
  intros Hrun.
  enough (is_Some ret ↔ status = Status_OK) as Hiff.
  { split; [by rewrite ok_true|]. apply Hiff. }
  revert Hrun. unfold TensorDebugInfo.
  destruct (Tensor handle) as [st tensor]. destruct (ok st) eqn:Hst; simpl.
  2:{ intros [= <- <- <-]. apply ok_false in Hst.
      split; [by intros [? [=]]|done]. }
  destruct (xla_device_of env handle) as [xla_device|].
  - unfold xla_debug_info.
    destruct (padded_shape_fn xla_device tensor) as [st' padded_shape].
    destruct (ok st') eqn:Hst'; simpl.
    2:{ intros [= <- <- <-]. apply ok_false in Hst'.
        split; [by intros [? [=]]|done]. }
    destruct (log_padded_shape env handle padded_shape st') as [log' st''].
    destruct (normalize_tuple_returns padded_shape) as (normalized & -> & Hkind).
    simpl. destruct normalized as [st3|normalized].
    + destruct Hkind as [message ->]. intros [= <- <- <-].
      split; [by intros [? [=]]|done].
    + destruct (padded_dev_dims normalized) as [dims|]; simpl; [|done].
      intros [= <- <- <-]. split; [done|by eexists].
  - unfold default_debug_info.
    destruct (TensorShapeAsVector handle) as [dims st'].
    destruct (ok st') eqn:Hst'; simpl; intros [= <- <- <-].
    + apply ok_true in Hst'. split; [done|by eexists].
    + apply ok_false in Hst'. split; [by intros [? [=]]|done].
Qed.

End properties.

(** C4, as stated, fails: the handle reports rank 2, its lookup of dimension
    0 gives 5 and its lookup of dimension 1 fails; the vector returned with
    the failing status is [[5]], not the empty one. *)
Lemma TensorShapeAsVector_partial_on_failure :
  let handle := examples.truncated Device_Other 2 [5] in
  lookup_fails_at handle (Some 1%nat) examples.no_such_dim ∧
  TensorShapeAsVector handle = ([5], examples.no_such_dim) ∧
  (TensorShapeAsVector handle).1 ≠ [].
Proof.
  simpl. split_and!; [|done..].
  exists 2%nat. split; [done|]. split; [lia|].
  split; [|split; done].
  intros [|j] Hj; [done|lia].
Qed.

Lemma TensorShapeAsVector_failure_witness :
  TensorShapeAsVector (examples.truncated Device_Other 3 [5; 7])
  = ([5; 7], examples.no_such_dim).
Proof.
  refine (proj1 (TensorShapeAsVector_failure
                   (examples.truncated Device_Other 3 [5; 7]) (Some 2%nat)
                   examples.no_such_dim _)).
  exists 3%nat. split; [reflexivity|]. split; [lia|].
  split; [|split; reflexivity].
  intros [|[|j]] Hj; [reflexivity..|lia].
Defined.

(** C3, as stated, fails: the handle is on an ordinary device and its rank
    and dimension lookups succeed with shape [[2; 3]], but its tensor cannot
    be resolved; no container is returned. *)
Lemma ordinary_device_unresolved_tensor :
  let handle := examples.unresolved Device_Other [2; 3] in
  device handle = Device_Other ∧
  lookups_succeed handle [2; 3] ∧
  TensorDebugInfo examples.env_xla handle = Returns ([], (None, examples.not_ready)).
Proof.
  simpl. split_and!; [done| |done].
  split; [done|]. intros [|[|i]] d Hd; simplify_eq/=; done.
Qed.

Lemma ordinary_device_identity_witness :
  TensorDebugInfo examples.env_xla (examples.resolved Device_Other [2; 3; 4])
  = Returns ([], (Some {| dev_dims := [2; 3; 4] |}, Status_OK)).
Proof.
  apply ordinary_device_identity; [reflexivity..|].
  split; [reflexivity|]. intros [|[|[|i]]] d Hd; simplify_eq/=; reflexivity.
Defined.

(** ** The properties at concrete handles *)

Lemma resolves_xla_reporting (ds : list Z) (s : Shape) :
  resolves_padded_shape examples.env_xla
    (examples.resolved (examples.xla_reporting s) ds) s.
Proof. by exists tt, {| padded_shape_fn := λ _ : unit, (Status_OK, s) |}. Qed.

(** The cases of §8: a tuple of three, a nested tuple and a pair of unequal
    shapes are rejected; a pair of equal shapes gives the sub-shape's sizes. *)
Example tuple_of_three_rejected :
  let s := ArrayShape examples.f32 [4; 4] [1; 0] in
  TensorDebugInfo examples.env_xla
    (examples.resolved (examples.xla_reporting (TupleShape [s; s; s])) [4; 4])
  = Returns ([ {| shape_to_log := [4; 4];
                  logged_padded_shape := TupleShape [s; s; s] |} ],
             (None, Status_Error INVALID_ARGUMENT
                "XlaTensors should only contain tuples of size 2. Shape: (tuple)")).
Proof. reflexivity. Qed.

Example nested_tuple_rejected :
  let s := ArrayShape examples.f32 [] [] in
  TensorDebugInfo examples.env_xla
    (examples.resolved (examples.xla_reporting (TupleShape [TupleShape [s; s]; s])) [])
  = Returns ([ {| shape_to_log := [];
                  logged_padded_shape := TupleShape [TupleShape [s; s]; s] |} ],
             (None, Status_Error INVALID_ARGUMENT
                "XlaTensors should not contain nested tuples. Shape: (tuple)")).
Proof. reflexivity. Qed.

Example unequal_pair_rejected :
  let a := ArrayShape examples.f32 [2; 3] [1; 0] in
  let b := ArrayShape examples.f32 [3; 2] [1; 0] in
  snd <$> TensorDebugInfo examples.env_xla
    (examples.resolved (examples.xla_reporting (TupleShape [a; b])) [2; 3])
  = Returns (None, Status_Error INVALID_ARGUMENT
               "Subshapes of XlaTensors should be the same. Shape: (tuple)").
Proof. reflexivity. Qed.

Example equal_pair_collapsed :
  let s := ArrayShape examples.f32 [4; 4] [1; 0] in
  snd <$> TensorDebugInfo examples.env_xla
    (examples.resolved (examples.xla_reporting (TupleShape [s; s])) [4; 4])
  = Returns (Some {| dev_dims := [4; 4] |}, Status_OK).
Proof. reflexivity. Qed.

(** Failing stages: an unresolved tensor on an XLA device, and a
    padded-shape function that fails. *)
Example unresolved_on_xla :
  TensorDebugInfo examples.env_xla
    (examples.unresolved (examples.xla_reporting examples.shape_234) [2; 3; 4])
  = Returns ([], (None, examples.not_ready)).
Proof. reflexivity. Qed.

Example padded_shape_fn_failing :
  TensorDebugInfo examples.env_xla (examples.resolved examples.xla_failing [2; 3; 4])
  = Returns ([], (None, examples.not_ready)).
Proof. reflexivity. Qed.

(** The end-to-end case of §8: logical shape [[2; 3; 4]], dimension 0
    minor-most. *)
Example end_to_end_234 :
  TensorDebugInfo examples.env_xla
    (examples.resolved (examples.xla_reporting examples.shape_234) [2; 3; 4])
  = Returns ([ {| shape_to_log := [2; 3; 4];
                  logged_padded_shape := examples.shape_234 |} ],
             (Some {| dev_dims := [4; 3; 2] |}, Status_OK)).
Proof. reflexivity. Qed.

(** Without the XLA branch the same handle gives its logical shape. *)
Example end_to_end_234_plain :
  TensorDebugInfo examples.env_plain
    (examples.resolved (examples.xla_reporting examples.shape_234) [2; 3; 4])
  = Returns ([], (Some {| dev_dims := [2; 3; 4] |}, Status_OK)).
Proof. reflexivity. Qed.

(** A layout entry that names no dimension: the read of line 139 is outside
    the dimension list, there is no test before it. *)
Example layout_entry_outside :
  padded_dev_dims examples.shape_outside = OutOfRange.
Proof. reflexivity. Qed.

(** C2, as stated, fails: the flat shape has rank 2 and dimension sizes
    [[2; 3]], its layout names dimension 0 twice; the container holds
    [[2; 2]], which is not a permutation of [[2; 3]]. *)
Lemma reordering_repeated_layout :
  let s := examples.shape_repeated in
  let handle := examples.resolved (examples.xla_reporting s) [2; 3] in
  IsTuple s = false ∧ 1 < dimensions_size s ∧
  padded_dev_dims s = Returns [2; 2] ∧
  snd <$> TensorDebugInfo examples.env_xla handle
  = Returns (Some {| dev_dims := [2; 2] |}, Status_OK) ∧
  ¬ ([2; 2] ≡ₚ dimensions_list s).
Proof.
  simpl. split_and!; [done..|].
  intros Hperm. assert (3 ∈ [2; 2]) as Hin.
  { rewrite Hperm. rewrite !elem_of_cons. tauto. }
  rewrite !elem_of_cons, elem_of_nil in Hin. lia.
Qed.

Lemma tuple_normalization_witness :
  let s := ArrayShape examples.f32 [4; 4] [1; 0] in
  let handle := examples.resolved (examples.xla_reporting (TupleShape [s; s])) [4; 4] in
  normalize_tuple examples.env_xla (TupleShape [s; s]) = Returns (inr s) ∧
  TensorDebugInfo examples.env_xla handle
  = Returns ([ {| shape_to_log := [4; 4];
                  logged_padded_shape := TupleShape [s; s] |} ],
             (Some {| dev_dims := [4; 4] |}, Status_OK)).
Proof.
  intros s handle.
  pose proof (proj2 (proj2 (proj2
           (tuple_normalization examples.env_xla handle [s; s]
              (resolves_xla_reporting [4; 4] (TupleShape [s; s])))))
         s s eq_refl eq_refl eq_refl eq_refl) as (Hnorm & Hrun & _).
  split; [exact Hnorm|exact Hrun].
Defined.

Lemma reorder_major_to_minor_witness :
  let s := ArrayShape examples.f32 [2; 3; 4] [1; 0; 2] in
  valid_layout s ∧
  ∃ out, padded_dev_dims s = Returns out ∧ out = [4; 2; 3].
Proof.
  intros s.
  assert (valid_layout s) as Hvalid by apply perm_swap.
  split; [exact Hvalid|].
  destruct (reorder_major_to_minor examples.env_xla
              (examples.resolved (examples.xla_reporting s) [2; 3; 4])
              examples.f32 [2; 3; 4] [1; 0; 2]
              (resolves_xla_reporting [2; 3; 4] s) ltac:(reflexivity) Hvalid)
    as (out & Hdims & _ & Hout & _).
  exists out. split; [exact Hdims|exact Hout].
Defined.

Lemma reordering_index_safety_witness :
  let s := ArrayShape examples.f32 [2; 3; 4] [2; 0; 1] in
  valid_layout s ∧ ∃ dev_dims, padded_dev_dims s = Returns dev_dims.
Proof.
  intros s.
  assert (valid_layout s) as Hvalid.
  { change ([2; 0; 1] ≡ₚ [0; 1; 2]). apply (Permutation_cons_app [0; 1] []).
    apply Permutation_refl. }
  split; [exact Hvalid|].
  exact (proj2 (proj1 (reordering_index_safety s eq_refl) Hvalid)).
Defined.

Lemma rank_one_fast_path_witness :
  let s := ArrayShape examples.f32 [7] [] in
  TensorDebugInfo examples.env_xla (examples.resolved (examples.xla_reporting s) [7])
  = Returns (logged examples.env_xla
               (examples.resolved (examples.xla_reporting s) [7]) s,
             (Some {| dev_dims := [7] |}, Status_OK)).
Proof.
  intros s.
  exact (proj2 (rank_one_fast_path examples.env_xla _ examples.f32 7 []
                  (resolves_xla_reporting [7] s))).
Defined.

Lemma rank_zero_witness :
  let s := ArrayShape examples.f32 [] [] in
  TensorDebugInfo examples.env_xla (examples.resolved (examples.xla_reporting s) [])
  = Returns (logged examples.env_xla
               (examples.resolved (examples.xla_reporting s) []) s,
             (Some {| dev_dims := [] |}, Status_OK)).
Proof.
  intros s.
  exact (rank_zero examples.env_xla _ examples.f32 []
           (resolves_xla_reporting [] s)).
Defined.

Lemma logging_noninterference_witness :
  let dev := examples.xla_reporting examples.shape_234 in
  ok (TensorShapeAsVector (examples.rankless dev)).2 = false ∧
  ok (TensorShapeAsVector (examples.resolved dev [2; 3; 4])).2 = true ∧
  TensorDebugInfo examples.env_xla (examples.rankless dev)
  = Returns ([], (Some {| dev_dims := [4; 3; 2] |}, Status_OK)).
Proof.
  intros dev. split; [reflexivity|]. split; [reflexivity|].
  exact (proj2 (logging_noninterference examples.env_xla
                  (examples.rankless dev) (examples.resolved dev [2; 3; 4])
                  examples.shape_234 eq_refl eq_refl
                  (resolves_xla_reporting [2; 3; 4] examples.shape_234)
                  eq_refl eq_refl)
               [ {| shape_to_log := [2; 3; 4];
                    logged_padded_shape := examples.shape_234 |} ]
               {| dev_dims := [4; 3; 2] |} Status_OK eq_refl).
Defined.

Lemma failure_returns_no_container_witness :
  ∃ log, TensorDebugInfo examples.env_xla (examples.truncated Device_Other 2 [5])
         = Returns (log, (None, examples.no_such_dim)).
Proof.
  refine (proj2 (failure_returns_no_container examples.env_xla
                   (examples.truncated Device_Other 2 [5]) examples.no_such_dim _)).
  apply (dim_lookup_fails _ _ tt 2%nat 1%nat); [reflexivity..|lia|].
  split; [|split; reflexivity].
  intros [|j] Hj; [reflexivity|lia].
Defined.

Lemma result_status_coupling_witness :
  is_Some (Some {| dev_dims := [4; 3; 2] |}) ↔ ok Status_OK = true.
Proof.
  exact (proj1 (result_status_coupling examples.env_xla _ _ _ _ end_to_end_234)).
Defined.

(** ** Further properties of the logical shape reader *)

Section reader.
Context {tensorflow_Tensor : Type}.
Implicit Types handle : TensorHandle tensorflow_Tensor.

(** Among the first [n] dimension lookups either one is the first to fail
    or all succeed. *)
Lemma first_failure_or_none handle (n : nat) :
  (∃ i status, (i < n)%nat ∧ first_failing_dim handle i status) ∨
  (∀ j : nat, (j < n)%nat → ok (Dim handle (Z.of_nat j)).1 = true).
Proof.
  induction n as [|n [(i & status & Hi & Hfirst)|Hall]].
  - right. intros j Hj. lia.
  - left. exists i, status. split; [lia|done].
  - destruct (ok (Dim handle (Z.of_nat n)).1) eqn:Hn.
    + right. intros j Hj. destruct (decide (j = n)) as [->|]; [done|].
      apply Hall. lia.
    + left. exists n, (Dim handle (Z.of_nat n)).1. split; [lia|].
      split; [done|]. by split.
Qed.

Lemma dims_read_lookup handle (n i : nat) :
  (i < n)%nat → dims_read handle n !! i = Some (Dim handle (Z.of_nat i)).2.
Proof.
  intros Hi. unfold dims_read. rewrite list_lookup_fmap.
  rewrite lookup_seqZ_lt by lia. simpl. by rewrite Z.add_0_l.
Qed.

Lemma lookups_succeed_dims_read handle (rank : nat) :
  NumDims handle = (Status_OK, rank) →
  (∀ j : nat, (j < rank)%nat → ok (Dim handle (Z.of_nat j)).1 = true) →
  lookups_succeed handle (dims_read handle rank).
Proof.
  intros Hrank Hall. split; [by rewrite length_dims_read|].
  intros i d Hd. pose proof (lookup_lt_Some _ _ _ Hd) as Hi.
  rewrite length_dims_read in Hi. rewrite dims_read_lookup in Hd by done.
  injection Hd as <-. specialize (Hall i Hi). apply ok_true in Hall.
  destruct (Dim handle (Z.of_nat i)) as [st d]. simpl in *. by subst st.
Qed.

(** What the reader returns once the rank lookup has succeeded. *)
Lemma TensorShapeAsVector_cases handle (rank : nat) :
  NumDims handle = (Status_OK, rank) →
  (∃ i status, (i < rank)%nat ∧ first_failing_dim handle i status ∧
               TensorShapeAsVector handle = (dims_read handle i, status)) ∨
  (lookups_succeed handle (dims_read handle rank) ∧
   TensorShapeAsVector handle = (dims_read handle rank, Status_OK)).
Proof.
  intros Hrank.
  destruct (first_failure_or_none handle rank) as [(i & status & Hi & Hfirst)|Hall].
  - left. exists i, status. split_and!; [done..|].
    by apply (TensorShapeAsVector_dim_fails handle rank).
  - right. pose proof (lookups_succeed_dims_read handle rank Hrank Hall) as Hok.
    split; [done|]. by apply TensorShapeAsVector_ok.
Qed.

Lemma TensorShapeAsVector_ok_inv handle (ds : list Z) status :
  TensorShapeAsVector handle = (ds, status) → ok status = true →
  lookups_succeed handle ds.
Proof.
  intros Hrun Hok. destruct (NumDims handle) as [st rank] eqn:Hrank.
  destruct (ok st) eqn:Hst.
  - apply ok_true in Hst. subst st.
    destruct (TensorShapeAsVector_cases handle rank Hrank)
      as [(i & status' & _ & (_ & _ & Hfail) & Hvec)|[Hsucc Hvec]].
    + rewrite Hvec in Hrun. injection Hrun as <- <-. congruence.
    + rewrite Hvec in Hrun. by injection Hrun as <- <-.
  - rewrite (TensorShapeAsVector_rank_fails handle st rank Hrank Hst) in Hrun.
    injection Hrun as <- <-. congruence.
Qed.

(** X1: [TensorShapeAsVector] returns the vector [ds] with OK status exactly
    when the rank lookup succeeds with the length of [ds] and the lookup of
    every dimension below it succeeds with the corresponding entry. *)
Theorem TensorShapeAsVector_ok_iff handle (ds : list Z) :
  TensorShapeAsVector handle = (ds, Status_OK) ↔ lookups_succeed handle ds.
Proof.
  split.
  - intros Hrun. by apply (TensorShapeAsVector_ok_inv handle ds Status_OK).
  - apply TensorShapeAsVector_ok.
Qed.

Lemma TensorShapeAsVector_loop_agree handle1 handle2 :
  ∀ (n i : nat) shape status,
    (∀ k : nat, (k < n)%nat →
       Dim handle1 (Z.of_nat (i + k)) = Dim handle2 (Z.of_nat (i + k))) →
    TensorShapeAsVector_loop handle1 n (Z.of_nat i) shape status
    = TensorShapeAsVector_loop handle2 n (Z.of_nat i) shape status.
Proof.
  induction n as [|n IH]; intros i shape status Hagree; [done|]. simpl.
  pose proof (Hagree 0%nat ltac:(lia)) as H0. rewrite Nat.add_0_r in H0.
  rewrite H0. destruct (Dim handle2 (Z.of_nat i)) as [st d].
  destruct (ok st); simpl; [|done].
  replace (Z.of_nat i + 1) with (Z.of_nat (S i)) by lia.
  apply IH. intros k Hk. replace (S i + k)%nat with (i + S k)%nat by lia.
  apply Hagree. lia.
Qed.

(** X2: [TensorShapeAsVector] asks a handle for its rank and for the
    dimensions [0 .. rank-1] only: two handles that agree on these give the
    same vector and status, whatever their other dimension lookups, tensors
    and devices are. *)
Theorem TensorShapeAsVector_reads_below_rank handle1 handle2 :
  NumDims handle1 = NumDims handle2 →
  (∀ i : nat, (i < (NumDims handle1).2)%nat →
     Dim handle1 (Z.of_nat i) = Dim handle2 (Z.of_nat i)) →
  TensorShapeAsVector handle1 = TensorShapeAsVector handle2.
Proof.
  intros Hrank Hdims. unfold TensorShapeAsVector. rewrite <- Hrank.
  destruct (NumDims handle1) as [st rank]. simpl in Hdims.
  destruct (ok st); simpl; [|done].
  change 0 with (Z.of_nat 0). by apply TensorShapeAsVector_loop_agree.
Qed.

Lemma TensorShapeAsVector_agree handle1 handle2 :
  NumDims handle1 = NumDims handle2 →
  (∀ i, Dim handle1 i = Dim handle2 i) →
  TensorShapeAsVector handle1 = TensorShapeAsVector handle2.
Proof.
  intros Hrank Hdims. unfold TensorShapeAsVector. rewrite <- Hrank.
  destruct (NumDims handle1) as [st rank].
  destruct (ok st); simpl; [|done].
  change 0 with (Z.of_nat 0). apply TensorShapeAsVector_loop_agree.
  intros k _. apply Hdims.
Qed.

(** X3: once the rank lookup has succeeded with [rank], the vector returned
    never has more than [rank] entries, and it has all [rank] of them
    exactly when the status returned is OK. *)
Theorem TensorShapeAsVector_complete_iff_ok handle (rank : nat) :
  NumDims handle = (Status_OK, rank) →
  (length (TensorShapeAsVector handle).1 ≤ rank)%nat ∧
  (length (TensorShapeAsVector handle).1 = rank
   ↔ ok (TensorShapeAsVector handle).2 = true).
Proof.
  intros Hrank.
  destruct (TensorShapeAsVector_cases handle rank Hrank)
    as [(i & status & Hi & (_ & _ & Hfail) & ->)|[_ ->]]; simpl;
    rewrite length_dims_read.
  - split; [lia|]. split; [lia|congruence].
  - done.
Qed.

End reader.

Lemma TensorShapeAsVector_reads_below_rank_witness :
  TensorShapeAsVector (examples.truncated Device_Other 2 [5; 7; 9])
  = TensorShapeAsVector
      (examples.resolved (examples.xla_reporting examples.shape_234) [5; 7]).
Proof.
  apply TensorShapeAsVector_reads_below_rank; [reflexivity|].
  intros [|[|i]] Hi; [reflexivity..|simpl in Hi; lia].
Defined.

Lemma TensorShapeAsVector_complete_iff_ok_witness :
  let handle := examples.truncated Device_Other 3 [5; 7] in
  (length (TensorShapeAsVector handle).1 ≤ 3)%nat.
Proof.
  intros handle. exact (proj1 (TensorShapeAsVector_complete_iff_ok
                  (examples.truncated Device_Other 3 [5; 7]) 3 eq_refl)).
Defined.

(** ** Further properties of [TensorDebugInfo] *)

Section query.
Context {tensorflow_Tensor : Type}.
Implicit Types handle : TensorHandle tensorflow_Tensor.
Implicit Types env : Env.

(** X4: a container returned on the default path holds exactly what the
    handle's lookups give: the tensor has resolved, the rank lookup has
    succeeded with the length of the container's sequence and every
    dimension lookup below it with the corresponding entry; the status is
    OK and nothing is logged. *)
Theorem default_path_container_sound env handle log debug_info status :
  xla_device_of env handle = None →
  TensorDebugInfo env handle = Returns (log, (Some debug_info, status)) →
  ok (Tensor handle).1 = true ∧
  lookups_succeed handle (dev_dims debug_info) ∧
  status = Status_OK ∧ log = [].
Proof.
  intros Hx. unfold TensorDebugInfo. rewrite Hx.
  destruct (Tensor handle) as [st tensor]. simpl.
  destruct (ok st) eqn:Hst; simpl; [|done].
  unfold default_debug_info.
  destruct (TensorShapeAsVector handle) as [ds st'] eqn:Hvec.
  destruct (ok st') eqn:Hst'; simpl; [|done].
  intros [= <- <- <-]. simpl. split_and!; [done| |by apply ok_true|done].
  by apply (TensorShapeAsVector_ok_inv handle ds st').
Qed.

(** X5: every return of the null pointer is the failure of one of the
    stages: the status that comes with it is the status of the tensor
    resolution, of the rank lookup or of the first failing dimension lookup
    (default path), of the padded-shape function, or the invalid-argument
    status of an unsupported tuple. *)
Theorem null_return_has_failing_stage env handle log status :
  TensorDebugInfo env handle = Returns (log, (None, status)) →
  stage_fails env handle status.
Proof.
  unfold TensorDebugInfo.
  destruct (Tensor handle) as [st tensor] eqn:Ht.
  destruct (ok st) eqn:Hst; simpl.
  2:{ intros [= <- <-]. by eapply tensor_resolution_fails. }
  apply ok_true in Hst. subst st.
  destruct (xla_device_of env handle) as [xla_device|] eqn:Hx.
  - unfold xla_debug_info.
    destruct (padded_shape_fn xla_device tensor) as [st padded_shape] eqn:Hfn.
    destruct (ok st) eqn:Hst; simpl.
    2:{ intros [= <- <-]. by eapply padded_shape_fn_fails. }
    apply ok_true in Hst. subst st.
    destruct (log_padded_shape env handle padded_shape Status_OK) as [log' st'].
    destruct (normalize_tuple env padded_shape) as [[st|normalized]|] eqn:Hnorm;
      simpl; [| |done].
    + intros [= <- <-]. apply (tuple_validation_fails env handle padded_shape).
      * by exists tensor, xla_device.
      * by apply normalize_tuple_rejected.
    + by destruct (padded_dev_dims normalized).
  - unfold default_debug_info.
    destruct (TensorShapeAsVector handle) as [ds st] eqn:Hvec.
    destruct (ok st) eqn:Hst; simpl; [done|]. intros [= <- <-].
    destruct (NumDims handle) as [st' rank] eqn:Hrank.
    destruct (ok st') eqn:Hst'.
    + apply ok_true in Hst'. subst st'.
      destruct (TensorShapeAsVector_cases handle rank Hrank)
        as [(i & status' & Hi & Hfirst & Hvec')|[_ Hvec']];
        rewrite Hvec' in Hvec; injection Hvec as <- <-; [|done].
      by eapply dim_lookup_fails.
    + rewrite (TensorShapeAsVector_rank_fails handle st' rank Hrank Hst') in Hvec.
      injection Hvec as <- <-. by eapply rank_lookup_fails.
Qed.

(** X6: in a build without [TENSORFLOW_EAGER_USE_XLA] the device of the
    handle is not looked at: two handles whose tensor resolution gives the
    same status and whose rank and dimension lookups agree get the same
    result, whatever their devices (an XLA device included) and tensors. *)
Theorem device_ignored_without_xla env handle1 handle2 :
  TENSORFLOW_EAGER_USE_XLA env = false →
  (Tensor handle1).1 = (Tensor handle2).1 →
  NumDims handle1 = NumDims handle2 →
  (∀ i, Dim handle1 i = Dim handle2 i) →
  TensorDebugInfo env handle1 = TensorDebugInfo env handle2.
Proof.
  intros Hflag Ht Hrank Hdims. unfold TensorDebugInfo, xla_device_of.
  rewrite Hflag.
  destruct (Tensor handle1) as [st1 t1], (Tensor handle2) as [st2 t2].
  simpl in Ht. subst st2. destruct (ok st1); simpl; [|done].
  unfold default_debug_info.
  by rewrite (TensorShapeAsVector_agree handle1 handle2).
Qed.

End query.

Section logging.
Context {tensorflow_Tensor : Type}.
Implicit Types handle : TensorHandle tensorflow_Tensor.
Implicit Types env : Env.

Lemma normalize_tuple_same_printer env1 env2 padded_shape :
  DebugString env1 = DebugString env2 →
  normalize_tuple env1 padded_shape = normalize_tuple env2 padded_shape.
Proof. intros Hprint. unfold normalize_tuple. by rewrite Hprint. Qed.

(** X7: the verbosity setting has no effect on what is returned: in two
    runs that differ only in [VLOG_IS_ON] the same handle gets the same
    pointer and the same status (or ends out of range in both). *)
Theorem verbosity_never_changes_outcome env1 env2 handle :
  TENSORFLOW_EAGER_USE_XLA env1 = TENSORFLOW_EAGER_USE_XLA env2 →
  DebugString env1 = DebugString env2 →
  snd <$> TensorDebugInfo env1 handle = snd <$> TensorDebugInfo env2 handle.
Proof.
  intros Hflag Hprint. unfold TensorDebugInfo, xla_device_of. rewrite Hflag.
  destruct (Tensor handle) as [st tensor]. destruct (ok st); simpl; [|done].
  destruct (if TENSORFLOW_EAGER_USE_XLA env2
            then dynamic_cast_XlaDevice (device handle) else None)
    as [xla_device|]; [|done].
  unfold xla_debug_info.
  destruct (padded_shape_fn xla_device tensor) as [st' padded_shape].
  destruct (ok st'); simpl; [|done].
  destruct (log_padded_shape env1 handle padded_shape st') as [log1 st1].
  destruct (log_padded_shape env2 handle padded_shape st') as [log2 st2].
  rewrite (normalize_tuple_same_printer env1 env2 padded_shape Hprint).
  destruct (normalize_tuple env2 padded_shape) as [[st3|normalized]|]; simpl;
    [done| |done].
  by destruct (padded_dev_dims normalized).
Qed.

Lemma log_padded_shape_lines env handle padded_shape status :
  (log_padded_shape env handle padded_shape status).1 = [] ∨
  ∃ ds, (log_padded_shape env handle padded_shape status).1
        = [ {| shape_to_log := ds; logged_padded_shape := padded_shape |} ] ∧
        VLOG_IS_ON env 3 = true ∧ lookups_succeed handle ds.
Proof.
  unfold log_padded_shape. destruct (VLOG_IS_ON env 3); [|by left].
  destruct (TensorShapeAsVector handle) as [ds st] eqn:Hvec.
  destruct (ok st) eqn:Hst; simpl; [|by left].
  right. exists ds. split_and!; [done..|].
  by apply (TensorShapeAsVector_ok_inv handle ds st).
Qed.

(** X8: a call logs nothing or one line.  A line is logged only at
    verbosity 3 on the XLA path; it holds the padded shape as the device
    reported it (a tuple is logged before it is collapsed) and the logical
    shape of the handle, all of whose lookups have then succeeded. *)
Theorem log_at_most_one_line env handle log outcome :
  TensorDebugInfo env handle = Returns (log, outcome) →
  log = [] ∨
  ∃ ds padded_shape,
    log = [ {| shape_to_log := ds; logged_padded_shape := padded_shape |} ] ∧
    VLOG_IS_ON env 3 = true ∧
    resolves_padded_shape env handle padded_shape ∧
    lookups_succeed handle ds.
Proof.
  unfold TensorDebugInfo.
  destruct (Tensor handle) as [st tensor] eqn:Ht.
  destruct (ok st) eqn:Hst; simpl; [|intros [= <- _]; by left].
  apply ok_true in Hst. subst st.
  destruct (xla_device_of env handle) as [xla_device|] eqn:Hx.
  - unfold xla_debug_info.
    destruct (padded_shape_fn xla_device tensor) as [st padded_shape] eqn:Hfn.
    destruct (ok st) eqn:Hst; simpl; [|intros [= <- _]; by left].
    apply ok_true in Hst. subst st.
    pose proof (log_padded_shape_lines env handle padded_shape Status_OK) as Hlines.
    destruct (log_padded_shape env handle padded_shape Status_OK) as [log' st'].
    simpl in Hlines. intros Hrun.
    assert (log = log') as ->.
    { destruct (normalize_tuple env padded_shape) as [[st3|normalized]|];
        simpl in Hrun; [congruence| |done].
      destruct (padded_dev_dims normalized); simpl in Hrun; [congruence|done]. }
    destruct Hlines as [->|(ds & -> & Hvlog & Hds)]; [by left|].
    right. exists ds, padded_shape. split_and!; [done..| |done].
    by exists tensor, xla_device.
  - unfold default_debug_info.
    destruct (TensorShapeAsVector handle) as [ds st].
    destruct (ok st); simpl; intros [= <- _]; by left.
Qed.

End logging.

Lemma verbosity_never_changes_outcome_witness :
  let handle := examples.resolved (examples.xla_reporting examples.shape_234) [2; 3; 4] in
  snd <$> TensorDebugInfo examples.env_xla handle
  = snd <$> TensorDebugInfo more_examples.env_quiet handle.
Proof.
  intros handle.
  exact (verbosity_never_changes_outcome examples.env_xla more_examples.env_quiet
           handle eq_refl eq_refl).
Defined.

(** ** Further properties of tuple validation and reordering *)

Section shapes.
Context {tensorflow_Tensor : Type}.
Implicit Types handle : TensorHandle tensorflow_Tensor.
Implicit Types env : Env.

(** X9: the reads of the tuple elements 0 and 1 in lines 107-109 are always
    inside the tuple; what tuple validation lets through is a flat shape,
    and validating that shape again gives it back. *)
Theorem normalize_tuple_safe_idempotent env (padded_shape : Shape) :
  normalize_tuple env padded_shape ≠ OutOfRange ∧
  ∀ normalized,
    normalize_tuple env padded_shape = Returns (inr normalized) →
    IsTuple normalized = false ∧
    normalize_tuple env normalized = Returns (inr normalized).
Proof.
  destruct (normalize_tuple_returns env padded_shape) as (r & Hr & Hkind).
  split; [congruence|]. intros normalized Hnorm.
  rewrite Hnorm in Hr. injection Hr as <-.
  split; [done|]. by apply normalize_tuple_flat.
Qed.

(** X10: tuple validation lets a descriptor through exactly when it is flat,
    and then unchanged, or a pair of one flat shape twice, and then as that
    shape. *)
Theorem normalize_tuple_accepts env (padded_shape normalized : Shape) :
  normalize_tuple env padded_shape = Returns (inr normalized)
  ↔ (IsTuple padded_shape = false ∧ normalized = padded_shape) ∨
    (IsTuple normalized = false ∧ padded_shape = TupleShape [normalized; normalized]).
Proof.
  split.
  - intros Hnorm. destruct padded_shape as [t ds m|ts].
    { left. split; [done|]. rewrite normalize_tuple_flat in Hnorm by done.
      by injection Hnorm as <-. }
    right.
    destruct (decide (length ts = 2%nat)) as [Hlen|Hlen];
      [|by rewrite normalize_tuple_arity in Hnorm].
    destruct ts as [|shape0 [|shape1 [|? ?]]]; try done.
    destruct (IsTuple shape0) eqn:H0;
      [by rewrite normalize_tuple_nested in Hnorm by (by left)|].
    destruct (IsTuple shape1) eqn:H1;
      [by rewrite normalize_tuple_nested in Hnorm by (by right)|].
    destruct (Equal shape0 shape1) eqn:Heq.
    + apply Equal_eq in Heq as ->. rewrite normalize_tuple_equal in Hnorm by done.
      by injection Hnorm as <-.
    + assert (shape0 ≠ shape1) as Hne
        by (intros E; apply Equal_eq in E; congruence).
      by rewrite normalize_tuple_unequal in Hnorm.
  - intros [[Hflat ->]|[Hflat ->]].
    + by apply normalize_tuple_flat.
    + by apply normalize_tuple_equal.
Qed.

(** What the loop of lines 137-140 pushes when it returns: one entry per
    iteration, each a dimension size of the shape. *)
Lemma reorder_loop_entries s :
  ∀ (n : nat) dev_dims out,
    reorder_loop s n dev_dims = Returns out →
    ∃ pushed, out = dev_dims ++ pushed ∧ length pushed = n ∧
              Forall (λ d, d ∈ dimensions_list s) pushed.
Proof.
  induction n as [|n IH]; intros dev_dims out; simpl.
  { intros [= <-]. exists []. by rewrite app_nil_r. }
  destruct (minor_to_major s (Z.of_nat n)) as [dim_index|]; [|done]. simpl.
  destruct (dimensions s dim_index) as [d|] eqn:Hd; [|done]. simpl.
  intros Hloop. destruct (IH _ _ Hloop) as (pushed & -> & Hlen & Hin).
  exists (d :: pushed). split_and!.
  - by rewrite <- app_assoc.
  - simpl. by rewrite Hlen.
  - constructor; [|done]. apply at_index_Some in Hd as [_ Hd].
    by eapply list_elem_of_lookup_2.
Qed.

Lemma padded_dev_dims_entries s out :
  padded_dev_dims s = Returns out →
  length out = length (dimensions_list s) ∧
  Forall (λ d, d ∈ dimensions_list s) out.
Proof.
  unfold padded_dev_dims.
  destruct (Z.eqb_spec (dimensions_size s) 1) as [Hone|_].
  - destruct (dimensions s 0) as [d|] eqn:Hd; [|done]. simpl. intros [= <-].
    unfold dimensions_size in Hone. split; [simpl; lia|].
    constructor; [|done]. apply at_index_Some in Hd as [_ Hd].
    by eapply list_elem_of_lookup_2.
  - intros Hloop.
    destruct (reorder_loop_entries s _ _ _ Hloop) as (pushed & -> & Hlen & Hin).
    split; [|done]. simpl. rewrite Hlen. unfold dimensions_size. lia.
Qed.

(** X11: a container returned on the XLA path has as many entries as the
    flat descriptor (the padded shape, or the element of an accepted pair)
    has dimensions, and each entry is one of its dimension sizes, also when
    the layout is not a permutation; the status is OK. *)
Theorem xla_container_entries env handle padded_shape log debug_info status :
  resolves_padded_shape env handle padded_shape →
  TensorDebugInfo env handle = Returns (log, (Some debug_info, status)) →
  ∃ normalized,
    normalize_tuple env padded_shape = Returns (inr normalized) ∧
    length (dev_dims debug_info) = length (dimensions_list normalized) ∧
    (∀ d, d ∈ dev_dims debug_info → d ∈ dimensions_list normalized) ∧
    status = Status_OK.
Proof.
  intros Hres. rewrite (TensorDebugInfo_xla _ _ _ Hres).
  destruct (normalize_tuple env padded_shape) as [[st|normalized]|]; simpl;
    [done| |done].
  unfold flat_debug_info.
  destruct (padded_dev_dims normalized) as [out|] eqn:Hout; simpl; [|done].
  intros [= _ <- <-]. exists normalized.
  destruct (padded_dev_dims_entries normalized out Hout) as [Hlen Hin].
  split_and!; [done..| |done].
  intros d Hd. by apply (proj1 (Forall_forall _ _) Hin).
Qed.

Lemma padded_dev_dims_rank_one s :
  dimensions_size s = 1 →
  padded_dev_dims s = Returns (dimensions_list s) ∧
  reverse (dimensions_list s) = dimensions_list s.
Proof.
  intros Hone. unfold padded_dev_dims, dimensions, dimensions_size in *.
  rewrite (proj2 (Z.eqb_eq _ _) Hone).
  destruct (dimensions_list s) as [|d [|? ?]]; simpl in *; [lia|done|lia].
Qed.

Lemma padded_dev_dims_row_major s :
  minor_to_major_list s = row_major (dimensions_size s) →
  padded_dev_dims s = Returns (dimensions_list s).
Proof.
  intros Hlayout. destruct (decide (dimensions_size s = 1)) as [Hone|Hone].
  { by apply padded_dev_dims_rank_one. }
  rewrite padded_dev_dims_valid; [|done|].
  - rewrite Hlayout. unfold row_major.
    by rewrite fmap_reverse, reverse_involutive, dim_at_seqZ.
  - unfold valid_layout. rewrite Hlayout. apply reverse_Permutation.
Qed.

Lemma padded_dev_dims_column_major s :
  minor_to_major_list s = column_major (dimensions_size s) →
  padded_dev_dims s = Returns (reverse (dimensions_list s)).
Proof.
  intros Hlayout. destruct (decide (dimensions_size s = 1)) as [Hone|Hone].
  { destruct (padded_dev_dims_rank_one s Hone) as [-> ->]. done. }
  rewrite padded_dev_dims_valid; [|done|].
  - rewrite Hlayout. unfold column_major. by rewrite dim_at_seqZ.
  - unfold valid_layout. by rewrite Hlayout.
Qed.

(** X12: for a flat padded shape in row-major layout (minor-to-major list
    [rank-1, ..., 1, 0]), of any rank, the container holds the dimension
    sizes in the order of the shape. *)
Theorem row_major_keeps_order env handle (t : Z) (ds : list Z) :
  let s := ArrayShape t ds (row_major (Z.of_nat (length ds))) in
  resolves_padded_shape env handle s →
  TensorDebugInfo env handle
  = Returns (logged env handle s, (Some {| dev_dims := ds |}, Status_OK)).
Proof.
  intros s Hres. rewrite (TensorDebugInfo_flat _ _ _ Hres eq_refl).
  unfold flat_debug_info. by rewrite (padded_dev_dims_row_major s eq_refl).
Qed.

(** X13: for a flat padded shape in column-major layout (minor-to-major list
    [0, 1, ..., rank-1]), of any rank, the container holds the dimension
    sizes in reverse order. *)
Theorem column_major_reverses env handle (t : Z) (ds : list Z) :
  let s := ArrayShape t ds (column_major (Z.of_nat (length ds))) in
  resolves_padded_shape env handle s →
  TensorDebugInfo env handle
  = Returns (logged env handle s, (Some {| dev_dims := reverse ds |}, Status_OK)).
Proof.
  intros s Hres. rewrite (TensorDebugInfo_flat _ _ _ Hres eq_refl).
  unfold flat_debug_info. by rewrite (padded_dev_dims_column_major s eq_refl).
Qed.

End shapes.

(** ** The container accessors and the ways not to return *)

Section accessors.
Context {tensorflow_Tensor : Type}.
Implicit Types handle : TensorHandle tensorflow_Tensor.
Implicit Types env : Env.


Lemma default_debug_info_Some handle log debug_info status :
  default_debug_info handle = Returns (log, (Some debug_info, status)) →
  lookups_succeed handle (dev_dims debug_info).
Proof.
  unfold default_debug_info.
  destruct (TensorShapeAsVector handle) as [ds st] eqn:Hvec.
  destruct (ok st) eqn:Hst; simpl; [|done]. intros [= _ <- _]. simpl.
  by apply (TensorShapeAsVector_ok_inv handle ds st).
Qed.

(** X15: the C sequence on the default path: when
    [TFE_TensorHandleTensorDebugInfo] returns a container for a handle that
    is not taken to an XLA device, [TFE_TensorDebugInfoOnDeviceNumDims]
    gives the rank the handle reports and [TFE_TensorDebugInfoOnDeviceDim]
    gives, at every index below it, the size the handle's [Dim] reports. *)
Theorem c_api_default_round_trip env (h : TFE_TensorHandle tensorflow_Tensor)
    log debug_info status :
  xla_device_of env (handle h) = None →
  TFE_TensorHandleTensorDebugInfo env h = Returns (log, (Some debug_info, status)) →
  TFE_TensorDebugInfoOnDeviceNumDims debug_info = Z.of_nat (NumDims (handle h)).2 ∧
  ∀ i, 0 ≤ i < Z.of_nat (NumDims (handle h)).2 →
    TFE_TensorDebugInfoOnDeviceDim debug_info i = Some (Dim (handle h) i).2.
Proof.
  intros Hx. unfold TFE_TensorHandleTensorDebugInfo, TensorDebugInfo. rewrite Hx.
  destruct (Tensor (handle h)) as [st tensor]. destruct (ok st); simpl; [|done].
  intros Hrun. destruct (default_debug_info_Some _ _ _ _ Hrun) as [Hrank Hdims].
  rewrite Hrank. simpl.
  split; [done|]. intros i Hi. unfold TFE_TensorDebugInfoOnDeviceDim.
  destruct (at_index_in_range (dev_dims debug_info) i Hi) as [d Hd].
  rewrite Hd. f_equal.
  apply at_index_Some in Hd as [_ Hd]. apply Hdims in Hd.
  rewrite Z2Nat.id in Hd by lia. by rewrite Hd.
Qed.

Lemma reorder_loop_out_of_range_inv s :
  ∀ (n : nat) dev_dims,
    reorder_loop s n dev_dims = OutOfRange →
    ∃ i : nat, (i < n)%nat ∧
      ∀ dim_index, minor_to_major s (Z.of_nat i) = Some dim_index →
                   ¬ (0 ≤ dim_index < dimensions_size s).
Proof.
  induction n as [|n IH]; intros dev_dims; simpl; [done|].
  destruct (minor_to_major s (Z.of_nat n)) as [dim_index|] eqn:Hindex; simpl.
  2:{ intros _. exists n. split; [lia|]. intros ?. by rewrite Hindex. }
  destruct (dimensions s dim_index) as [d|] eqn:Hd; simpl.
  - intros Hloop. destruct (IH _ Hloop) as (i & Hi & Hbad).
    exists i. split; [lia|done].
  - intros _. exists n. split; [lia|]. intros dim_index'. rewrite Hindex.
    intros [= <-] Hrange.
    destruct (at_index_in_range (dimensions_list s) dim_index Hrange) as [d Hd'].
    unfold dimensions in Hd. congruence.
Qed.

Lemma padded_dev_dims_out_of_range s :
  padded_dev_dims s = OutOfRange
  ↔ 1 < dimensions_size s ∧ ∃ i, unsafe_position s i.
Proof.
  unfold padded_dev_dims. split.
  - destruct (Z.eqb_spec (dimensions_size s) 1) as [Hone|Hone].
    { destruct (at_index_in_range (dimensions_list s) 0) as [d Hd].
      { unfold dimensions_size in Hone. lia. }
      unfold dimensions. by rewrite Hd. }
    intros Hloop.
    destruct (reorder_loop_out_of_range_inv s _ _ Hloop) as (i & Hi & Hbad).
    assert (0 ≤ dimensions_size s) by (unfold dimensions_size; lia).
    split; [lia|]. exists (Z.of_nat i). split; [lia|done].
  - intros (Hrank & i & Hi & Hbad).
    destruct (Z.eqb_spec (dimensions_size s) 1) as [?|_]; [lia|].
    apply reorder_loop_out_of_range. exists (Z.to_nat i).
    split; [lia|]. by rewrite Z2Nat.id by lia.
Qed.

(** X16: the one way for [TensorDebugInfo] not to return: the call ends out
    of range exactly when the handle is on an XLA device whose padded shape
    passes tuple validation as a flat shape of rank above 1 with a layout
    position that is unset or names no dimension.  The default path, the
    failing stages and the ranks 0 and 1 always return. *)
Theorem out_of_range_iff env handle :
  TensorDebugInfo env handle = OutOfRange
  ↔ ∃ padded_shape normalized i,
      resolves_padded_shape env handle padded_shape ∧
      normalize_tuple env padded_shape = Returns (inr normalized) ∧
      1 < dimensions_size normalized ∧
      unsafe_position normalized i.
Proof.
  split.
  - unfold TensorDebugInfo.
    destruct (Tensor handle) as [st tensor] eqn:Ht.
    destruct (ok st) eqn:Hst; simpl; [|done].
    apply ok_true in Hst. subst st.
    destruct (xla_device_of env handle) as [xla_device|] eqn:Hx.
    2:{ unfold default_debug_info.
        destruct (TensorShapeAsVector handle) as [ds st]. by destruct (ok st). }
    unfold xla_debug_info.
    destruct (padded_shape_fn xla_device tensor) as [st padded_shape] eqn:Hfn.
    destruct (ok st) eqn:Hst; simpl; [|done].
    apply ok_true in Hst. subst st.
    destruct (log_padded_shape env handle padded_shape Status_OK) as [log st].
    destruct (normalize_tuple_returns env padded_shape) as (r & Hr & _).
    rewrite Hr. simpl. destruct r as [st'|normalized]; [done|].
    destruct (padded_dev_dims normalized) as [out|] eqn:Hout; simpl; [done|].
    intros _. apply padded_dev_dims_out_of_range in Hout as (Hrank & i & Hi).
    exists padded_shape, normalized, i. split_and!; [|done..].
    by exists tensor, xla_device.
  - intros (padded_shape & normalized & i & Hres & Hnorm & Hrank & Hi).
    rewrite (TensorDebugInfo_xla _ _ _ Hres), Hnorm. simpl.
    unfold flat_debug_info.
    rewrite (proj2 (padded_dev_dims_out_of_range normalized)); [done|].
    split; [done|by exists i].
Qed.

End accessors.

(** *** The further properties at concrete handles *)

Lemma default_path_container_sound_witness :
  lookups_succeed
    (examples.resolved (examples.xla_reporting examples.shape_234) [2; 3; 4])
    [2; 3; 4].
Proof.
  exact (proj1 (proj2
    (default_path_container_sound examples.env_plain
       (examples.resolved (examples.xla_reporting examples.shape_234) [2; 3; 4])
       [] {| dev_dims := [2; 3; 4] |} Status_OK eq_refl eq_refl))).
Defined.

Lemma null_return_has_failing_stage_witness :
  let pair := TupleShape [examples.shape_234; more_examples.shape_234_row_major] in
  stage_fails examples.env_xla
    (examples.resolved (examples.xla_reporting pair) [2; 3; 4])
    (Status_Error INVALID_ARGUMENT
       "Subshapes of XlaTensors should be the same. Shape: (tuple)").
Proof.
  intros pair.
  exact (null_return_has_failing_stage examples.env_xla
           (examples.resolved (examples.xla_reporting pair) [2; 3; 4])
           [ {| shape_to_log := [2; 3; 4]; logged_padded_shape := pair |} ]
           (Status_Error INVALID_ARGUMENT
              "Subshapes of XlaTensors should be the same. Shape: (tuple)")
           eq_refl).
Defined.

Lemma device_ignored_without_xla_witness :
  TensorDebugInfo examples.env_plain
    (examples.resolved (examples.xla_reporting examples.shape_234) [2; 3; 4])
  = TensorDebugInfo examples.env_plain (examples.resolved Device_Other [2; 3; 4]).
Proof.
  apply device_ignored_without_xla; reflexivity.
Defined.

Lemma xla_container_entries_witness :
  ∃ normalized,
    normalize_tuple examples.env_xla examples.shape_repeated
    = Returns (inr normalized) ∧
    length [2; 2] = length (dimensions_list normalized) ∧
    (∀ d, d ∈ [2; 2] → d ∈ dimensions_list normalized) ∧
    Status_OK = Status_OK.
Proof.
  exact (xla_container_entries examples.env_xla
           (examples.resolved (examples.xla_reporting examples.shape_repeated) [2; 3])
           examples.shape_repeated _ {| dev_dims := [2; 2] |} Status_OK
           (resolves_xla_reporting [2; 3] examples.shape_repeated) eq_refl).
Defined.

Lemma row_major_keeps_order_witness :
  snd <$> TensorDebugInfo examples.env_xla
    (examples.resolved (examples.xla_reporting more_examples.shape_234_row_major)
       [2; 3; 4])
  = Returns (Some {| dev_dims := [2; 3; 4] |}, Status_OK).
Proof.
  rewrite (row_major_keeps_order examples.env_xla _ examples.f32 [2; 3; 4]
             (resolves_xla_reporting [2; 3; 4] more_examples.shape_234_row_major)).
  reflexivity.
Defined.

Lemma column_major_reverses_witness :
  snd <$> TensorDebugInfo examples.env_xla
    (examples.resolved (examples.xla_reporting examples.shape_234) [2; 3; 4])
  = Returns (Some {| dev_dims := [4; 3; 2] |}, Status_OK).
Proof.
  rewrite (column_major_reverses examples.env_xla _ examples.f32 [2; 3; 4]
             (resolves_xla_reporting [2; 3; 4] examples.shape_234)).
  reflexivity.
Defined.

Lemma c_api_default_round_trip_witness :
  TFE_TensorDebugInfoOnDeviceNumDims {| dev_dims := [2; 3; 4] |} = 3 ∧
  TFE_TensorDebugInfoOnDeviceDim {| dev_dims := [2; 3; 4] |} 1 = Some 3.
Proof.
  destruct (c_api_default_round_trip examples.env_xla
              {| handle := examples.resolved Device_Other [2; 3; 4] |}
              [] {| dev_dims := [2; 3; 4] |} Status_OK eq_refl eq_refl)
    as [Hcount Hdim].
  split; [exact Hcount|]. exact (Hdim 1 ltac:(simpl; lia)).
Defined.

Lemma log_at_most_one_line_witness :
  let handle :=
    examples.resolved (examples.xla_reporting examples.shape_234) [2; 3; 4] in
  let log := [ {| shape_to_log := [2; 3; 4];
                  logged_padded_shape := examples.shape_234 |} ] in
  log = [] ∨
  ∃ ds padded_shape,
    log = [ {| shape_to_log := ds; logged_padded_shape := padded_shape |} ] ∧
    VLOG_IS_ON examples.env_xla 3 = true ∧
    resolves_padded_shape examples.env_xla handle padded_shape ∧
    lookups_succeed handle ds.
Proof.
  intros handle log.
  exact (log_at_most_one_line examples.env_xla handle log
           (Some {| dev_dims := [4; 3; 2] |}, Status_OK) eq_refl).
Defined.
